(** * zoltpy: the CSV codec and the resource proxies, embedded and verified

    A shallow embedding of [zoltpy/csv_io.py] and [zoltpy/connection.py].
    Python values that come out of [json.loads] are modelled by the
    inductive type [jvalue]; Python exceptions by the type [exn]; a call
    that may raise returns a [result].  Code that mutates objects or talks
    to the server is written in a state-and-exception monad over the
    Python objects involved and the log of HTTP requests issued so far. *)

From Stdlib Require Import ZArith String Ascii List Decimal DecimalString DecimalNat Lia.
From stdpp Require Import base option list strings gmap.

Local Open Scope string_scope.
Local Open Scope list_scope.

(** ** Decoded JSON values *)

(** A Python [float]: not-a-number, an infinity, or the finite value
    [m * 2^e]. *)
Inductive pyfloat :=
| FNan
| FInf (negative : bool)
| FFinite (m e : Z).

(** What [json.loads] returns.  A [dict] keeps its insertion order, so it is
    an association list (whose keys are pairwise distinct in any value
    Python can build).  A [str] is a string of 8-bit characters, which is
    exact for ASCII text. *)
#[warnings="-register-all"] Inductive jvalue :=
| JNull
| JBool (b : bool)
| JInt (n : Z)
| JFloat (f : pyfloat)
| JStr (s : string)
| JList (xs : list jvalue)
| JDict (kvs : list (string * jvalue)).

(** ** Exceptions *)

(** The argument of each [RuntimeError] raised by the two modules; the
    f-string fields are kept as data. *)
Inductive runtime_message :=
| NoPredictionsSection                       (* "no predictions section found in json_io_dict" *)
| InvalidPredictionClass (prediction_class : jvalue)
                                             (* f"invalid prediction_dict class: {prediction_class}" *)
| JsonForUriNoSession                        (* "json_for_uri(): no session" *)
| JsonForUriStatus (status_code : Z) (text : string)
| GetTokenStatus (status_code : Z) (text : string)
| DeleteStatus (status_code : Z) (text : string)
| WrongKeys (expected actual : gset string)  (* f"Wrong keys in 'model_config'. ..." *)
| CreateModelStatus (status_code : Z) (text : string).

Inductive exn :=
| RuntimeError (msg : runtime_message)
| KeyError (key : jvalue)
| TypeError
| IndexError
| ValueError
| AttributeError
| RequestException.

Inductive result (A : Type) :=
| Ok (a : A)
| Raise (e : exn).
Arguments Ok {A} a.
Arguments Raise {A} e.

#[global] Instance result_ret : MRet result := λ A a, Ok a.
#[global] Instance result_bind : MBind result :=
  λ A B f r, match r with Ok a => f a | Raise e => Raise e end.

(** ** The Python operations the code applies to decoded JSON *)

Fixpoint dict_get (key : string) (kvs : list (string * jvalue)) : option jvalue :=
  match kvs with
  | [] => None
  | (k, v) :: kvs' => if String.eqb k key then Some v else dict_get key kvs'
  end.

Definition dict_keys (kvs : list (string * jvalue)) : list string := fst <$> kvs.

(** [needle in haystack] for two [str]: substring test. *)
Fixpoint str_contains (needle haystack : string) : bool :=
  String.prefix needle haystack ||
  match haystack with
  | EmptyString => false
  | String _ rest => str_contains needle rest
  end.

(** [v == s] where [s] is a [str]: only an equal [str] compares equal. *)
Definition py_eq_str (v : jvalue) (s : string) : bool :=
  match v with
  | JStr t => String.eqb t s
  | _ => false
  end.

(** [v in [s1, s2, ...]] for a list of [str] literals. *)
Definition py_in_strs (v : jvalue) (l : list string) : bool :=
  existsb (py_eq_str v) l.

(** [key in v] for a [str] key. *)
Definition py_contains (key : string) (v : jvalue) : result bool :=
  match v with
  | JDict kvs => Ok (bool_decide (key ∈ dict_keys kvs))
  | JList xs => Ok (existsb (λ x, py_eq_str x key) xs)
  | JStr s => Ok (str_contains key s)
  | _ => Raise TypeError
  end.

(** [v[key]] for a [str] key. *)
Definition py_getitem (v : jvalue) (key : string) : result jvalue :=
  match v with
  | JDict kvs =>
      match dict_get key kvs with
      | Some x => Ok x
      | None => Raise (KeyError (JStr key))
      end
  | _ => Raise TypeError
  end.

(** The elements [iter(v)] yields, in order. *)
Definition py_iter (v : jvalue) : result (list jvalue) :=
  match v with
  | JList xs => Ok xs
  | JDict kvs => Ok (JStr <$> dict_keys kvs)
  | JStr s => Ok ((λ c, JStr (String c EmptyString)) <$> list_ascii_of_string s)
  | _ => Raise TypeError
  end.

(** Truth value of a decoded JSON value ([bool(v)]). *)
Definition py_truthy (v : jvalue) : bool :=
  match v with
  | JNull => false
  | JBool b => b
  | JInt n => negb (n =? 0)%Z
  | JFloat (FFinite m _) => negb (m =? 0)%Z
  | JFloat _ => true
  | JStr s => negb (String.eqb s "")
  | JList xs => match xs with [] => false | _ => true end
  | JDict kvs => match kvs with [] => false | _ => true end
  end.

(** ** [zoltpy/csv_io.py] *)

Module CsvIo.

(** Modelled from the spec: the constants [BIN_DISTRIBUTION_CLASS],
    [NAMED_DISTRIBUTION_CLASS], [POINT_PREDICTION_CLASS] and
    [SAMPLE_PREDICTION_CLASS] that [csv_io.py] imports from
    [zoltpy.quantile_io], a module that is not part of the sources at hand;
    the spec gives the class tags as bin, named, point, sample, quantile. *)
Definition BIN_DISTRIBUTION_CLASS : string := "bin".
Definition NAMED_DISTRIBUTION_CLASS : string := "named".
Definition POINT_PREDICTION_CLASS : string := "point".
Definition SAMPLE_PREDICTION_CLASS : string := "sample".

Definition row : Type := list jvalue.

Definition CSV_HEADER : row :=
  JStr <$> ["unit"; "target"; "class"; "value"; "cat"; "prob"; "sample"; "quantile";
            "family"; "param1"; "param2"; "param3"].

Definition valid_classes : list string := ["bin"; "named"; "point"; "sample"; "quantile"].

(** [rows.append(r)] run once for every element of [items], in order. *)
Definition append_each {A} (mk : A → row) (items : list A) (rows : list row) : list row :=
  foldl (λ acc x, acc ++ [mk x]) rows items.

(** [prediction[key] if key in prediction else ''] *)
Definition param_or_empty (prediction : jvalue) (key : string) : result jvalue :=
  present ← py_contains key prediction;
  if (present : bool) then py_getitem prediction key else Ok (JStr "").

(** One pass through the body of the [for prediction_dict in ...] loop,
    starting from the rows collected so far. *)
Definition prediction_rows (prediction_dict : jvalue) (rows : list row) : result (list row) :=
  prediction_class ← py_getitem prediction_dict "class";
  if negb (py_in_strs prediction_class valid_classes)
  then Raise (RuntimeError (InvalidPredictionClass prediction_class))
  else
    unit ← py_getitem prediction_dict "unit";
    target ← py_getitem prediction_dict "target";
    prediction ← py_getitem prediction_dict "prediction";
    let value := JStr "" in let cat := JStr "" in let prob := JStr "" in
    let sample := JStr "" in let quantile := JStr "" in let family := JStr "" in
    let param1 := JStr "" in let param2 := JStr "" in let param3 := JStr "" in
    if py_eq_str prediction_class BIN_DISTRIBUTION_CLASS then
      cats ← py_getitem prediction "cat";
      probs ← py_getitem prediction "prob";
      cats ← py_iter cats;
      probs ← py_iter probs;
      Ok (append_each
            (λ '(cat, prob), [unit; target; prediction_class; value; cat; prob; sample;
                              quantile; family; param1; param2; param3])
            (zip cats probs) rows)
    else if py_eq_str prediction_class NAMED_DISTRIBUTION_CLASS then
      family ← py_getitem prediction "family";
      param1 ← param_or_empty prediction "param1";
      param2 ← param_or_empty prediction "param2";
      param3 ← param_or_empty prediction "param3";
      Ok (rows ++ [[unit; target; prediction_class; value; cat; prob; sample; quantile;
                    family; param1; param2; param3]])
    else if py_eq_str prediction_class POINT_PREDICTION_CLASS then
      value ← py_getitem prediction "value";
      Ok (rows ++ [[unit; target; prediction_class; value; cat; prob; sample; quantile;
                    family; param1; param2; param3]])
    else if py_eq_str prediction_class SAMPLE_PREDICTION_CLASS then
      samples ← py_getitem prediction "sample";
      samples ← py_iter samples;
      Ok (append_each
            (λ sample, [unit; target; prediction_class; value; cat; prob; sample;
                        quantile; family; param1; param2; param3])
            samples rows)
    else
      quantiles ← py_getitem prediction "quantile";
      values ← py_getitem prediction "value";
      quantiles ← py_iter quantiles;
      values ← py_iter values;
      Ok (append_each
            (λ '(quantile, value), [unit; target; prediction_class; value; cat; prob; sample;
                                    quantile; family; param1; param2; param3])
            (zip quantiles values) rows).

(** The [for] loop: the first exception ends it and discards the rows. *)
Fixpoint predictions_loop (predictions : list jvalue) (rows : list row) : result (list row) :=
  match predictions with
  | [] => Ok rows
  | prediction_dict :: rest =>
      rows' ← prediction_rows prediction_dict rows;
      predictions_loop rest rows'
  end.

Definition csv_rows_from_json_io_dict (json_io_dict : jvalue) : result (list row) :=
  present ← py_contains "predictions" json_io_dict;
  if negb present
  then Raise (RuntimeError NoPredictionsSection)
  else
    predictions ← py_getitem json_io_dict "predictions";
    predictions ← py_iter predictions;
    predictions_loop predictions [CSV_HEADER].

(** *** The conversion table of the specification

    Read-only views of an entry, used to state what the loop computes. *)

Definition blank : jvalue := JStr "".

(** [field v key] is [v[key]], or [None] (JSON null) where that raises. *)
Definition field (v : jvalue) (key : string) : jvalue :=
  match py_getitem v key with Ok x => x | Raise _ => JNull end.

(** The elements of an array-valued field, in order. *)
Definition elements (v : jvalue) : list jvalue :=
  match py_iter v with Ok xs => xs | Raise _ => [] end.

Definition has_class (e : jvalue) (c : string) : bool := py_eq_str (field e "class") c.

(** A parameter of a named entry: the payload's value, empty when absent. *)
Definition named_param (payload : jvalue) (key : string) : jvalue :=
  match py_getitem payload key with Ok x => x | Raise _ => blank end.

(** The rows of one entry as the table of the specification gives them:
    one row per (cat, prob) pair, per sample, per (quantile, value) pair,
    in array order; one row for a named or point entry. *)
Definition entry_table (e : jvalue) : list row :=
  let unit := field e "unit" in
  let target := field e "target" in
  let class := field e "class" in
  let payload := field e "prediction" in
  if has_class e "bin" then
    zip_with (λ cat prob, [unit; target; class; blank; cat; prob; blank; blank;
                           blank; blank; blank; blank])
             (elements (field payload "cat")) (elements (field payload "prob"))
  else if has_class e "named" then
    [[unit; target; class; blank; blank; blank; blank; blank;
      field payload "family"; named_param payload "param1";
      named_param payload "param2"; named_param payload "param3"]]
  else if has_class e "point" then
    [[unit; target; class; field payload "value"; blank; blank; blank; blank;
      blank; blank; blank; blank]]
  else if has_class e "sample" then
    (λ sample, [unit; target; class; blank; blank; blank; sample; blank;
                blank; blank; blank; blank]) <$> elements (field payload "sample")
  else if has_class e "quantile" then
    zip_with (λ quantile value, [unit; target; class; value; blank; blank; blank; quantile;
                                 blank; blank; blank; blank])
             (elements (field payload "quantile")) (elements (field payload "value"))
  else [].

(** Number of rows an entry contributes: the number of pairs that can be
    formed from the two parallel arrays of a bin or quantile entry, the
    number of samples of a sample entry, one for named and point. *)
Definition entry_cardinality (e : jvalue) : nat :=
  let payload := field e "prediction" in
  if has_class e "bin" then
    length (elements (field payload "cat")) `min` length (elements (field payload "prob"))
  else if has_class e "named" then 1
  else if has_class e "point" then 1
  else if has_class e "sample" then length (elements (field payload "sample"))
  else if has_class e "quantile" then
    length (elements (field payload "quantile")) `min` length (elements (field payload "value"))
  else 0.

(** The count read off the first array alone: k categories, k samples,
    k quantiles. *)
Definition entry_cardinality_first_array (e : jvalue) : nat :=
  let payload := field e "prediction" in
  if has_class e "bin" then length (elements (field payload "cat"))
  else if has_class e "named" then 1
  else if has_class e "point" then 1
  else if has_class e "sample" then length (elements (field payload "sample"))
  else if has_class e "quantile" then length (elements (field payload "quantile"))
  else 0.

(** The two arrays of a bin entry, and of a quantile entry, are as long as
    each other. *)
Definition parallel_arrays (e : jvalue) : Prop :=
  let payload := field e "prediction" in
  (has_class e "bin" = true →
   length (elements (field payload "cat")) = length (elements (field payload "prob"))) ∧
  (has_class e "quantile" = true →
   length (elements (field payload "quantile")) = length (elements (field payload "value"))).

(** The entries of a JSON IO dict, in source order. *)
Definition entries (json_io_dict : jvalue) : list jvalue :=
  elements (field json_io_dict "predictions").

(** An entry the loop body gets through without raising. *)
Definition accepted (e : jvalue) : Prop := ∃ rows, prediction_rows e [] = Ok rows.

(** *** Sample inputs *)

Definition half : jvalue := JFloat (FFinite 1 (-1)).

Definition make_entry (unit target class : string) (payload : list (string * jvalue)) : jvalue :=
  JDict [("unit", JStr unit); ("target", JStr target); ("class", JStr class);
         ("prediction", JDict payload)].

(** A bin entry with two categories and a single probability. *)
Definition uneven_bin_dict : jvalue :=
  JDict [("predictions",
          JList [make_entry "loc1" "season onset" "bin"
                   [("cat", JList [JStr "2019-12-15"; JStr "2019-12-22"]);
                    ("prob", JList [half])]])].

Definition uneven_bin_rows : list row :=
  [CSV_HEADER;
   [JStr "loc1"; JStr "season onset"; JStr "bin"; blank; JStr "2019-12-15"; half;
    blank; blank; blank; blank; blank; blank]].

(** One entry of every class, after a meta section. *)
Definition five_classes_dict : jvalue :=
  JDict [("meta", JDict [("forecast", JDict [("id", JInt 71)])]);
         ("predictions",
          JList [make_entry "loc1" "pct next week" "point" [("value", JInt 2)];
                 make_entry "loc1" "pct next week" "named"
                   [("family", JStr "norm"); ("param1", JInt 1); ("param2", JInt 2)];
                 make_entry "loc2" "pct next week" "bin"
                   [("cat", JList [JInt 1; JInt 2; JInt 3]);
                    ("prob", JList [half; half; JInt 0])];
                 make_entry "loc2" "pct next week" "sample"
                   [("sample", JList [JInt 5; JInt 3])];
                 make_entry "loc3" "pct next week" "quantile"
                   [("quantile", JList [half]); ("value", JList [JInt 4])]])].



End CsvIo.

(** ** [zoltpy/connection.py] *)

Module Connection.

(** *** The transport and the objects *)

Inductive http_method := GET | POST | DELETE.

(** A call of [requests.get], [requests.post] or [requests.delete]:
    [authorization] is the token formatted into the 'Authorization: JWT ...'
    header, [payload] the form data or JSON sent along. *)
Record request := {
  method : http_method;
  url : string;
  authorization : option jvalue;
  payload : option jvalue;
}.

(** What the code reads off a response: [json_body] is the value of
    [response.json()], absent when the body does not decode. *)
Record response := {
  status_code : Z;
  text : string;
  json_body : option jvalue;
}.

Record ZoltarSession := { token : jvalue }.

Record ZoltarConnection := {
  host : string;
  username : option string;
  password : option string;
  session : option ZoltarSession;
}.

(** [_json] is a decoded JSON value; Python's [None] is [JNull]. *)
Record ZoltarResource := {
  uri : string;
  _json : jvalue;
}.

(** The objects a method call can touch: the connection, the resource the
    method is invoked on, and the requests issued so far (oldest first). *)
Record state := {
  zoltar_connection : ZoltarConnection;
  resource : ZoltarResource;
  sent : list request;
}.

Definition M (A : Type) : Type := state → result A * state.

#[global] Instance M_ret : MRet M := λ A a st, (Ok a, st).
#[global] Instance M_bind : MBind M :=
  λ A B f m st,
    match m st with
    | (Ok a, st') => f a st'
    | (Raise e, st') => (Raise e, st')
    end.

Definition raise {A} (e : exn) : M A := λ st, (Raise e, st).
Definition lift {A} (r : result A) : M A := λ st, (r, st).

Definition get_connection : M ZoltarConnection := λ st, (Ok (zoltar_connection st), st).
Definition set_connection (c : ZoltarConnection) : M () :=
  λ st, (Ok (), {| zoltar_connection := c; resource := resource st; sent := sent st |}).
Definition get_self : M ZoltarResource := λ st, (Ok (resource st), st).
Definition set__json (j : jvalue) : M () :=
  λ st, (Ok (), {| zoltar_connection := zoltar_connection st;
                   resource := {| uri := uri (resource st); _json := j |};
                   sent := sent st |}).

Definition ZoltarResource__init__ (uri : string) (initial_json : jvalue) : ZoltarResource :=
  {| uri := uri; _json := initial_json |}.

(** [response.json()] *)
Definition response_json (r : response) : M jvalue :=
  match json_body r with
  | Some j => mret j
  | None => raise ValueError
  end.

(** [self.zoltar_connection.session.token] *)
Definition session_token : M jvalue :=
  c ← get_connection;
  match session c with
  | Some s => mret (token s)
  | None => raise AttributeError
  end.

(** *** Strings: [str.split] on a one-character separator, and [int] *)

Fixpoint split (sep : ascii) (s : string) : list string :=
  match s with
  | EmptyString => [EmptyString]
  | String c rest =>
      if Ascii.eqb c sep then EmptyString :: split sep rest
      else match split sep rest with
           | word :: words => String c word :: words
           | [] => [String c EmptyString]
           end
  end.

(** Truth value of a [str]. *)
Definition nonempty (s : string) : bool :=
  match s with EmptyString => false | String _ _ => true end.

(** White space as [int] skips it around the digits of an ASCII [str]:
    tab, LF, VT, FF, CR (U+0009..U+000D) and the space U+0020. *)
Definition is_space (c : ascii) : bool :=
  let n := nat_of_ascii c in
  ((9 <=? n) && (n <=? 13) || (n =? 32))%nat.

Definition digit_of (c : ascii) : option Z :=
  let n := nat_of_ascii c in
  if ((48 <=? n) && (n <=? 57))%nat then Some (Z.of_nat n - 48)%Z else None.

Fixpoint lstrip (cs : list ascii) : list ascii :=
  match cs with
  | c :: cs' => if is_space c then lstrip cs' else cs
  | [] => []
  end.

Definition strip (cs : list ascii) : list ascii := rev (lstrip (rev (lstrip cs))).

(** Decimal digits, single underscores allowed between two digits. *)
Fixpoint int_digits (cs : list ascii) (acc : Z) (after_digit : bool) : option Z :=
  match cs with
  | [] => if after_digit then Some acc else None
  | c :: cs' =>
      match digit_of c with
      | Some d => int_digits cs' (10 * acc + d)%Z true
      | None =>
          if Ascii.eqb c "_" && after_digit then int_digits cs' acc false else None
      end
  end.

(** [int(s)] for a [str] of ASCII characters: optional white space around
    an optional sign and decimal digits. *)
Definition py_int (s : string) : result Z :=
  let cs := strip (list_ascii_of_string s) in
  let '(negative, digits) :=
    match cs with
    | c :: cs' =>
        if Ascii.eqb c "-" then (true, cs')
        else if Ascii.eqb c "+" then (false, cs')
        else (false, cs)
    | [] => (false, cs)
    end in
  match int_digits digits 0 false with
  | Some n => Ok (if negative then - n else n)%Z
  | None => Raise ValueError
  end.

(** [ZoltarResource.id_for_uri] *)
Definition id_for_uri (uri : string) : result Z :=
  let url_split := filter (λ split, nonempty split = true) (split "/" uri) in
  match last url_split with
  | Some segment => py_int segment
  | None => Raise IndexError
  end.

(** The decimal digits of a natural number, as [str] prints an [int]. *)
Definition decimal (n : nat) : string := NilZero.string_of_uint (Nat.to_uint n).

(** [k] slashes in a row. *)
Fixpoint slashes (k : nat) : string :=
  match k with
  | O => EmptyString
  | S k' => String "/" (slashes k')
  end.

(** The locator [<base>/<N>] followed by [k] slashes. *)
Definition locator (base : string) (n : nat) (k : nat) : string :=
  (base ++ "/" ++ decimal n ++ slashes k)%string.

(** A string in which the separator does not occur. *)
Definition free_of (sep : ascii) (s : string) : Prop :=
  Forall (λ c, Ascii.eqb c sep = false) (list_ascii_of_string s).

(** A character [int] reads as a digit and as nothing else. *)
Definition plain_digit (c : ascii) : Prop :=
  is_space c = false ∧ Ascii.eqb c "/" = false ∧ Ascii.eqb c "-" = false ∧
  Ascii.eqb c "+" = false ∧ ∃ d, digit_of c = Some (Z.of_nat d) ∧ (d < 10)%nat.

(** *** UploadFileJob status codes *)

Definition STATUS_ID_TO_STR : gmap Z string :=
  <[0%Z := "PENDING"]> (<[1%Z := "CLOUD_FILE_UPLOADED"]> (<[2%Z := "QUEUED"]>
  (<[3%Z := "CLOUD_FILE_DOWNLOADED"]> (<[4%Z := "SUCCESS"]> (<[5%Z := "FAILED"]> ∅))))).

(** The integer a finite float is equal to, if any. *)
Definition float_as_int (f : pyfloat) : option Z :=
  match f with
  | FFinite m e =>
      if (0 <=? e)%Z then Some (m * 2 ^ e)%Z
      else if (m mod 2 ^ (- e) =? 0)%Z then Some (m / 2 ^ (- e))%Z
      else None
  | _ => None
  end.

(** [UploadFileJob.STATUS_ID_TO_STR[key]]: keys are found by hash and
    equality, so [True] and [1.0] find the entry of [1]; a list or a dict is
    not hashable. *)
Definition status_lookup (key : jvalue) : result string :=
  let at_int (n : Z) :=
    match STATUS_ID_TO_STR !! n with
    | Some name => Ok name
    | None => Raise (KeyError key)
    end in
  match key with
  | JInt n => at_int n
  | JBool b => at_int (if b then 1 else 0)%Z
  | JFloat f => match float_as_int f with Some n => at_int n | None => Raise (KeyError key) end
  | JNull | JStr _ => Raise (KeyError key)
  | JList _ | JDict _ => Raise TypeError
  end.

Section WithTransport.

(** The remote side: what a request is answered with, given the requests
    that came before it; the transport may raise instead of answering. *)
Variable send : list request → request → result response.

(** Python's [str()] on a decoded JSON value, as f-strings apply it. *)
Variable py_str : jvalue → string.

(** One HTTP round trip; the request is logged whether or not it is
    answered. *)
Definition http (rq : request) : M response :=
  λ st, (send (sent st) rq,
         {| zoltar_connection := zoltar_connection st; resource := resource st;
            sent := sent st ++ [rq] |}).

(** **** ZoltarSession *)

Definition _get_token (c : ZoltarConnection) : M jvalue :=
  let credential (o : option string) := match o with Some s => JStr s | None => JNull end in
  response ← http {| method := POST; url := (host c ++ "/api-token-auth/")%string;
                     authorization := None;
                     payload := Some (JDict [("username", credential (username c));
                                             ("password", credential (password c))]) |};
  if negb (status_code response =? 200)%Z
  then raise (RuntimeError (GetTokenStatus (status_code response) (text response)))
  else
    j ← response_json response;
    lift (py_getitem j "token").

Definition ZoltarSession__init__ (c : ZoltarConnection) : M ZoltarSession :=
  t ← _get_token c;
  mret {| token := t |}.

Definition is_token_expired (s : ZoltarSession) : bool := true.

(** **** ZoltarConnection *)

Definition ZoltarConnection__init__ (host : string) : ZoltarConnection :=
  {| host := host; username := None; password := None; session := None |}.

Definition authenticate (username password : option string) : M () :=
  c ← get_connection;
  let c := {| host := host c; username := username; password := password;
              session := session c |} in
  _ ← set_connection c;
  s ← ZoltarSession__init__ c;
  set_connection {| host := host c; username := username; password := password;
                    session := Some s |}.

Definition re_authenticate_if_necessary : M () :=
  c ← get_connection;
  match session c with
  | None => raise AttributeError
  | Some s =>
      if is_token_expired s
      then authenticate (username c) (password c)
      else mret ()
  end.

Definition json_for_uri (uri : string) : M jvalue :=
  c ← get_connection;
  match session c with
  | None => raise (RuntimeError JsonForUriNoSession)
  | Some s =>
      response ← http {| method := GET; url := uri; authorization := Some (token s);
                         payload := None |};
      if negb (status_code response =? 200)%Z
      then raise (RuntimeError (JsonForUriStatus (status_code response) (text response)))
      else response_json response
  end.

(** **** ZoltarResource *)

Definition refresh : M jvalue :=
  self ← get_self;
  j ← json_for_uri (uri self);
  _ ← set__json j;
  mret j.

(** The [json] property. *)
Definition json : M jvalue :=
  self ← get_self;
  if py_truthy (_json self) then mret (_json self) else refresh.

Definition delete : M () :=
  self ← get_self;
  t ← session_token;
  response ← http {| method := DELETE; url := uri self; authorization := Some t;
                     payload := None |};
  if negb (status_code response =? 204)%Z
  then raise (RuntimeError (DeleteStatus (status_code response) (text response)))
  else mret ().

(** **** Project *)

Definition expected_keys : gset string :=
  {[ "name"; "abbreviation"; "team_name"; "description"; "home_url"; "aux_data_url" ]}.

(** [set(model_config.keys())] *)
Definition actual_keys (model_config : jvalue) : result (gset string) :=
  match model_config with
  | JDict kvs => Ok (list_to_set (dict_keys kvs))
  | _ => Raise AttributeError
  end.

Definition create_model (model_config : jvalue) : M ZoltarResource :=
  actual_keys ← lift (actual_keys model_config);
  if negb (bool_decide (actual_keys = expected_keys))
  then raise (RuntimeError (WrongKeys expected_keys actual_keys))
  else
    self ← get_self;
    t ← session_token;
    response ← http {| method := POST; url := (uri self ++ "models/")%string;
                       authorization := Some t;
                       payload := Some (JDict [("model_config", model_config)]) |};
    if negb (status_code response =? 200)%Z
    then raise (RuntimeError (CreateModelStatus (status_code response) (text response)))
    else
      new_model_json ← response_json response;
      new_model_pk ← lift (py_getitem new_model_json "id");
      c ← get_connection;
      let new_model_url := (host c ++ "/api/model/" ++ py_str new_model_pk)%string in
      mret (ZoltarResource__init__ new_model_url new_model_json).

(** **** UploadFileJob *)

Definition status_as_str : M string :=
  j ← json;
  status_int ← lift (py_getitem j "status");
  lift (status_lookup status_int).

End WithTransport.

(** *** Sample servers and states *)

Definition ok_response (j : jvalue) : response :=
  {| status_code := 200; text := ""; json_body := Some j |}.

(** A server that answers every request with 200 and an empty JSON object. *)
Definition empty_object_server (_ : list request) (_ : request) : result response :=
  Ok (ok_response (JDict [])).

(** A server that answers every request with 500. *)
Definition failing_server (_ : list request) (_ : request) : result response :=
  Ok {| status_code := 500; text := "Server Error (500)"; json_body := None |}.

(** A server that hands out a token on POST, and answers GET with the JSON
    of an upload file job whose status is 4. *)
Definition job_json : jvalue :=
  JDict [("id", JInt 2); ("url", JStr "https://zoltardata.com/api/uploadfilejob/2/");
         ("status", JInt 4)].

Definition job_server (_ : list request) (rq : request) : result response :=
  match method rq with
  | POST => Ok (ok_response (JDict [("token", JStr "fresh-token")]))
  | GET => Ok (ok_response job_json)
  | DELETE => Ok {| status_code := 204; text := ""; json_body := None |}
  end.

(** [str] of a decoded JSON value, exact on [None], [bool], non-negative
    [int] and [str]; enough for the samples below. *)
Definition str_of_scalar (v : jvalue) : string :=
  match v with
  | JNull => "None"
  | JBool true => "True"
  | JBool false => "False"
  | JInt n => decimal (Z.to_nat n)
  | JStr s => s
  | _ => ""
  end.

Definition authenticated : ZoltarConnection :=
  {| host := "https://zoltardata.com"; username := Some "user"; password := Some "secret";
     session := Some {| token := JStr "stale-token" |} |}.

(** A freshly constructed proxy of an upload file job, nothing sent yet. *)
Definition fresh_job : state :=
  {| zoltar_connection := authenticated;
     resource := ZoltarResource__init__ "https://zoltardata.com/api/uploadfilejob/2/" JNull;
     sent := [] |}.

(** The same proxy once its JSON has been read from [job_server]. *)
Definition cached_job : state := (json job_server fresh_job).2.

(** A project proxy, and a model configuration that lacks 'aux_data_url'. *)
Definition project_state : state :=
  {| zoltar_connection := authenticated;
     resource := ZoltarResource__init__ "https://zoltardata.com/api/project/3/" JNull;
     sent := [] |}.

Definition incomplete_config : list (string * jvalue) :=
  [("name", JStr "a model"); ("abbreviation", JStr "am"); ("team_name", JStr "a team");
   ("description", JStr "a description"); ("home_url", JStr "http://example.com/")].

(** The GET request [json_for_uri] issues. *)
Definition fetch_request (s : ZoltarSession) (uri : string) : request :=
  {| method := GET; url := uri; authorization := Some (token s); payload := None |}.

(** The POST request [_get_token] issues. *)
Definition token_request (c : ZoltarConnection) : request :=
  {| method := POST; url := (host c ++ "/api-token-auth/")%string; authorization := None;
     payload := Some (JDict [("username", match username c with Some s => JStr s | None => JNull end);
                             ("password", match password c with Some s => JStr s | None => JNull end)]) |}.

End Connection.

(** ** [zoltpy/connection.py]: navigation and typed accessors *)

Module Resources.
Import Connection.

(** The arguments a proxy is constructed with when they are read off a
    response: the uri is whatever JSON value the response held, the initial
    JSON is [None] ([JNull]) where the constructor is called without one. *)
Record new_proxy := {
  new_uri : jvalue;
  new_json : jvalue;
}.

(** The proxy as an object methods can be invoked on: its uri is a [str]. *)
Definition as_resource (p : new_proxy) : option ZoltarResource :=
  match new_uri p with
  | JStr u => Some (ZoltarResource__init__ u (new_json p))
  | _ => None
  end.

(** A list comprehension [[f(x) for x in xs]]: the first exception ends
    it. *)
Fixpoint comprehension {A B} (f : A → result B) (xs : list A) : result (list B) :=
  match xs with
  | [] => Ok []
  | x :: xs' =>
      y ← f x;
      ys ← comprehension f xs';
      Ok (y :: ys)
  end.

(** [[Cls(self.zoltar_connection, x_json['url'], x_json) for x_json in json_list]] *)
Definition proxies_of_list (json_list : jvalue) : result (list new_proxy) :=
  items ← py_iter json_list;
  comprehension (λ x_json, url ← py_getitem x_json "url";
                           Ok {| new_uri := url; new_json := x_json |}) items.

Section WithTransport.

Variable send : list request → request → result response.
Variable py_str : jvalue → string.

(** **** ZoltarConnection *)

Definition projects : M (list new_proxy) :=
  c ← get_connection;
  projects_json_list ← json_for_uri send (host c ++ "/api/projects/")%string;
  lift (proxies_of_list projects_json_list).

(** **** ZoltarResource *)

(** The [id] property. *)
Definition ZoltarResource_id : M Z :=
  self ← get_self;
  lift (id_for_uri (uri self)).

(** [self.json[key]], the body of every typed accessor. *)
Definition json_item (key : string) : M jvalue :=
  j ← json send;
  lift (py_getitem j key).

(** **** Project *)

Definition Project_name : M jvalue := json_item "name".

Definition Project_models : M (list new_proxy) :=
  self ← get_self;
  models_json_list ← json_for_uri send (uri self ++ "models/")%string;
  lift (proxies_of_list models_json_list).

Definition Project_units : M (list new_proxy) :=
  self ← get_self;
  units_json_list ← json_for_uri send (uri self ++ "units/")%string;
  lift (proxies_of_list units_json_list).

Definition Project_targets : M (list new_proxy) :=
  self ← get_self;
  targets_json_list ← json_for_uri send (uri self ++ "targets/")%string;
  lift (proxies_of_list targets_json_list).

Definition Project_timezeros : M (list new_proxy) :=
  self ← get_self;
  timezeros_json_list ← json_for_uri send (uri self ++ "timezeros/")%string;
  lift (proxies_of_list timezeros_json_list).

(** **** Model *)

Definition Model_name : M jvalue := json_item "name".

Definition Model_forecasts : M (list new_proxy) :=
  self ← get_self;
  forecasts_json_list ← json_for_uri send (uri self ++ "forecasts/")%string;
  lift (proxies_of_list forecasts_json_list).

Definition Model_forecast_for_pk (forecast_pk : jvalue) : M ZoltarResource :=
  c ← get_connection;
  let forecast_uri := (host c ++ "/api/forecast/" ++ py_str forecast_pk ++ "/")%string in
  mret (ZoltarResource__init__ forecast_uri JNull).

(** **** Forecast *)

Definition Forecast_timezero : M new_proxy :=
  time_zero ← json_item "time_zero";
  mret {| new_uri := time_zero; new_json := JNull |}.

Definition Forecast_source : M jvalue := json_item "source".
Definition Forecast_created_at : M jvalue := json_item "created_at".

(** **** Unit, Target, TimeZero *)

Definition Unit_name : M jvalue := json_item "name".

Definition Target_name : M jvalue := json_item "name".
Definition Target_type : M jvalue := json_item "type".
Definition Target_is_step_ahead : M jvalue := json_item "is_step_ahead".
Definition Target_step_ahead_increment : M jvalue := json_item "step_ahead_increment".
Definition Target_unit : M jvalue := json_item "unit".

Definition TimeZero_timezero_date : M jvalue := json_item "timezero_date".
Definition TimeZero_data_version_date : M jvalue := json_item "data_version_date".
Definition TimeZero_is_season_start : M jvalue := json_item "is_season_start".
Definition TimeZero_season_name : M jvalue := json_item "season_name".

(** **** UploadFileJob *)

Definition UploadFileJob__init__ (uri : string) : ZoltarResource :=
  ZoltarResource__init__ uri JNull.

Definition UploadFileJob_output_json : M jvalue := json_item "output_json".

(** *** What the navigation properties have in common *)

(** [m] returns the children of one list fetch: when it returns, exactly
    the GET of [list_uri] has been issued through the session, it was answered
    with 200 and a JSON value whose elements, in order, are the snapshots of
    the children, the uri of each child being the 'url' of its element. *)
Definition lists_children (m : M (list new_proxy)) (list_uri : state → string) : Prop :=
  ∀ st children st',
    m st = (Ok children, st') →
    ∃ s r l items,
      session (zoltar_connection st) = Some s ∧
      send (sent st) (fetch_request s (list_uri st)) = Ok r ∧
      status_code r = 200%Z ∧ json_body r = Some l ∧ py_iter l = Ok items ∧
      st' = {| zoltar_connection := zoltar_connection st; resource := resource st;
               sent := sent st ++ [fetch_request s (list_uri st)] |} ∧
      Forall2 (λ item child, new_json child = item ∧
                             py_getitem item "url" = Ok (new_uri child))
              items children.

(** [m] fetches the list at [list_uri] and wraps its elements. *)
Definition fetches_list (m : M (list new_proxy)) (list_uri : state → string) : Prop :=
  ∀ st, m st = match json_for_uri send (list_uri st) st with
               | (Ok l, st1) => (proxies_of_list l, st1)
               | (Raise e, st1) => (Raise e, st1)
               end.

(** [m] returns no child at all when one element of the fetched list has
    no 'url'. *)
Definition fails_as_a_whole (m : M (list new_proxy)) (list_uri : state → string) : Prop :=
  ∀ st s r l items item e,
    session (zoltar_connection st) = Some s →
    send (sent st) (fetch_request s (list_uri st)) = Ok r →
    status_code r = 200%Z → json_body r = Some l → py_iter l = Ok items →
    item ∈ items → py_getitem item "url" = Raise e →
    ∃ e', (m st).1 = Raise e' ∧
          sent (m st).2 = sent st ++ [fetch_request s (list_uri st)].

End WithTransport.

(** [m] issues at most one request, and changes neither the uri of the
    proxy nor the host of the connection. *)
Definition frugal {A} (m : M A) : Prop :=
  ∀ st, uri (resource (m st).2) = uri (resource st) ∧
        host (zoltar_connection (m st).2) = host (zoltar_connection st) ∧
        (sent (m st).2 = sent st ∨ ∃ rq, sent (m st).2 = sent st ++ [rq]).

(** [m] leaves the connection, credentials and session included, as it is. *)
Definition keeps_connection {A} (m : M A) : Prop :=
  ∀ st, zoltar_connection (m st).2 = zoltar_connection st.

(** [m] leaves the proxy, its snapshot included, as it is. *)
Definition keeps_resource {A} (m : M A) : Prop :=
  ∀ st, resource (m st).2 = resource st.

(** The connection once [authenticate] has stored the credentials. *)
Definition with_credentials (c : ZoltarConnection) (u p : option string) : ZoltarConnection :=
  {| host := host c; username := u; password := p; session := session c |}.

(** The state after one more request. *)
Definition after_request (rq : request) (st : state) : state :=
  {| zoltar_connection := zoltar_connection st; resource := resource st;
     sent := sent st ++ [rq] |}.

(** The state in which a method is invoked on another proxy: same
    connection, same log of requests. *)
Definition on_resource (r : ZoltarResource) (st : state) : state :=
  {| zoltar_connection := zoltar_connection st; resource := r; sent := sent st |}.

(** The request [delete] issues. *)
Definition delete_request (s : ZoltarSession) (uri : string) : request :=
  {| method := DELETE; url := uri; authorization := Some (token s); payload := None |}.

(** The request [create_model] issues. *)
Definition create_model_request (s : ZoltarSession) (uri : string) (model_config : jvalue)
  : request :=
  {| method := POST; url := (uri ++ "models/")%string; authorization := Some (token s);
     payload := Some (JDict [("model_config", model_config)]) |}.

(** A [str] of slashes only. *)
Definition only_slashes (s : string) : Prop :=
  Forall (λ c, c = "/"%char) (list_ascii_of_string s).

(** A [str] of ASCII characters only (code points below 128), the strings
    for which [py_int] is what [int] does. *)
Definition ascii_str (s : string) : Prop :=
  Forall (λ c, (nat_of_ascii c < 128)%nat) (list_ascii_of_string s).

(** A character that cannot occur in what [int] accepts from an ASCII
    [str]: no digit, none of the six white space characters, no underscore
    and no sign. *)
Definition not_numeric (c : ascii) : Prop :=
  digit_of c = None ∧ is_space c = false ∧ c ≠ "_"%char ∧ c ≠ "+"%char ∧ c ≠ "-"%char.

(** *** Sample servers and values *)

Definition model5_json : jvalue :=
  JDict [("id", JInt 5); ("url", JStr "https://zoltardata.com/api/model/5/");
         ("name", JStr "a model")].

Definition model6_json : jvalue :=
  JDict [("id", JInt 6); ("url", JStr "https://zoltardata.com/api/model/6/");
         ("name", JStr "another model")].

Definition model_list : jvalue := JList [model5_json; model6_json].

Definition new_model_json : jvalue := JDict [("id", JInt 7); ("name", JStr "a model")].

(** A server whose lists hold an element without 'url'. *)
Definition broken_list_server (_ : list request) (_ : request) : result response :=
  Ok (ok_response (JList [model5_json; JDict [("id", JInt 6)]])).

(** A server that hands out a token on POST to the token endpoint, answers
    a POST to a project's models with the JSON of a new model, and answers
    GET with the list of models. *)
Definition project_server (_ : list request) (rq : request) : result response :=
  match method rq with
  | POST =>
      if String.eqb (url rq) "https://zoltardata.com/api-token-auth/"
      then Ok (ok_response (JDict [("token", JStr "fresh-token")]))
      else Ok (ok_response new_model_json)
  | GET => Ok (ok_response model_list)
  | DELETE => Ok {| status_code := 204; text := ""; json_body := None |}
  end.

Definition complete_config : list (string * jvalue) :=
  incomplete_config ++ [("aux_data_url", JNull)].

Definition unauthenticated : state :=
  {| zoltar_connection := ZoltarConnection__init__ "https://zoltardata.com";
     resource := ZoltarResource__init__ "https://zoltardata.com/api/project/3/" JNull;
     sent := [] |}.

End Resources.

(** ** [zoltpy/csv_io.py]: shapes of entries and columns of rows *)

Module CsvShapes.
Import CsvIo.

(** Column [i] of a row ([None] past its end). *)
Definition column (i : nat) (r : row) : jvalue := default JNull (r !! i).

(** An entry as the documentation of the format describes it: a dict with
    unit, target, class and prediction, the prediction being a dict that
    holds the arrays (or scalars) of its class. *)
Inductive well_formed : jvalue → Prop :=
| wf_bin kvs payload unit target cats probs :
    dict_get "class" kvs = Some (JStr "bin") →
    dict_get "unit" kvs = Some unit → dict_get "target" kvs = Some target →
    dict_get "prediction" kvs = Some (JDict payload) →
    dict_get "cat" payload = Some (JList cats) →
    dict_get "prob" payload = Some (JList probs) →
    well_formed (JDict kvs)
| wf_named kvs payload unit target family :
    dict_get "class" kvs = Some (JStr "named") →
    dict_get "unit" kvs = Some unit → dict_get "target" kvs = Some target →
    dict_get "prediction" kvs = Some (JDict payload) →
    dict_get "family" payload = Some family →
    well_formed (JDict kvs)
| wf_point kvs payload unit target value :
    dict_get "class" kvs = Some (JStr "point") →
    dict_get "unit" kvs = Some unit → dict_get "target" kvs = Some target →
    dict_get "prediction" kvs = Some (JDict payload) →
    dict_get "value" payload = Some value →
    well_formed (JDict kvs)
| wf_sample kvs payload unit target samples :
    dict_get "class" kvs = Some (JStr "sample") →
    dict_get "unit" kvs = Some unit → dict_get "target" kvs = Some target →
    dict_get "prediction" kvs = Some (JDict payload) →
    dict_get "sample" payload = Some (JList samples) →
    well_formed (JDict kvs)
| wf_quantile kvs payload unit target quantiles values :
    dict_get "class" kvs = Some (JStr "quantile") →
    dict_get "unit" kvs = Some unit → dict_get "target" kvs = Some target →
    dict_get "prediction" kvs = Some (JDict payload) →
    dict_get "quantile" payload = Some (JList quantiles) →
    dict_get "value" payload = Some (JList values) →
    well_formed (JDict kvs).

(** The keys the loop body reads from an entry, in the order it reads
    them. *)
Definition entry_keys : list string := ["class"; "unit"; "target"; "prediction"].

(** What the loop body needs of an entry to get through: a dict with a
    valid class, a unit, a target and a prediction that is a dict. *)
Definition entry_shape (e : jvalue) : Prop :=
  ∃ kvs c unit target payload,
    e = JDict kvs ∧
    dict_get "class" kvs = Some c ∧ py_in_strs c valid_classes = true ∧
    dict_get "unit" kvs = Some unit ∧ dict_get "target" kvs = Some target ∧
    dict_get "prediction" kvs = Some (JDict payload).

(** The columns [cols] of a row hold the empty string. *)
Definition blank_columns (cols : list nat) (r : row) : Prop :=
  Forall (λ i, column i r = blank) cols.

(** The columns a row of each class leaves empty. *)
Definition unused_columns (e : jvalue) : list nat :=
  if has_class e "bin" then [3; 6; 7; 8; 9; 10; 11]
  else if has_class e "named" then [3; 4; 5; 6; 7]
  else if has_class e "point" then [4; 5; 6; 7; 8; 9; 10; 11]
  else if has_class e "sample" then [3; 4; 5; 7; 8; 9; 10; 11]
  else [4; 5; 6; 8; 9; 10; 11].

(** *** Sample inputs *)

Definition point_entry : jvalue :=
  make_entry "loc1" "pct next week" "point" [("value", JInt 2)].

Definition sample_entry : jvalue :=
  make_entry "loc2" "pct next week" "sample" [("sample", JList [JInt 5; JInt 3])].

Definition predictions_dict (ps : list jvalue) : jvalue :=
  JDict [("predictions", JList ps)].

Definition point_row : row :=
  [JStr "loc1"; JStr "pct next week"; JStr "point"; JInt 2; blank; blank; blank; blank;
   blank; blank; blank; blank].

Definition sample_rows : list row :=
  [[JStr "loc2"; JStr "pct next week"; JStr "sample"; blank; blank; blank; JInt 5; blank;
    blank; blank; blank; blank];
   [JStr "loc2"; JStr "pct next week"; JStr "sample"; blank; blank; blank; JInt 3; blank;
    blank; blank; blank; blank]].

End CsvShapes.

(** * Properties of the CSV codec *)

Module CsvIoSpec.
Import CsvIo.

Lemma bind_Ok {A B} (r : result A) (f : A → result B) (b : B) :
  r ≫= f = Ok b ↔ ∃ a, r = Ok a ∧ f a = Ok b.
Proof.
  destruct r as [a|e]; simpl; split.
  - eauto.
  - by intros (a' & [= <-] & ?).
  - done.
  - by intros (a' & ? & ?).
Qed.

Lemma append_each_app {A} (mk : A → row) items rows :
  append_each mk items rows = rows ++ (mk <$> items).
Proof.
  unfold append_each. revert rows.
  induction items as [|x items IH]; intros rows; simpl.
  - by rewrite app_nil_r.
  - by rewrite IH, <- app_assoc.
Qed.

Lemma py_eq_str_true v s : py_eq_str v s = true ↔ v = JStr s.
Proof.
  destruct v; simpl; try (split; [discriminate | congruence]).
  rewrite String.eqb_eq. split; congruence.
Qed.

Lemma dict_get_None key kvs : key ∉ dict_keys kvs → dict_get key kvs = None.
Proof.
  induction kvs as [|[k v] kvs IH]; simpl; [done|].
  rewrite not_elem_of_cons. intros [Hne Hnotin].
  destruct (String.eqb_spec k key); [congruence | auto].
Qed.

Lemma dict_get_Some key kvs : key ∈ dict_keys kvs → is_Some (dict_get key kvs).
Proof.
  induction kvs as [|[k v] kvs IH]; simpl.
  - by intros ?%elem_of_nil.
  - rewrite elem_of_cons. intros [Heq | Hin].
    + subst. by rewrite String.eqb_refl.
    + destruct (String.eqb k key); eauto.
Qed.

Lemma param_or_empty_Ok payload key x :
  param_or_empty payload key = Ok x → x = named_param payload key.
Proof.
  unfold param_or_empty, named_param, blank.
  destruct payload; simpl; try discriminate.
  - destruct (str_contains _ _); [discriminate | congruence].
  - destruct (existsb _ _); [discriminate | congruence].
  - case_bool_decide as Hin.
    + destruct (dict_get key kvs); congruence.
    + rewrite (dict_get_None _ _ Hin). congruence.
Qed.

Lemma fmap_zip {A B C} (f : A → B → C) (l : list A) (k : list B) :
  (λ '(a, b), f a b) <$> zip l k = zip_with f l k.
Proof.
  revert k. induction l as [|a l IH]; intros [|b k]; simpl; [done..|].
  by rewrite IH.
Qed.

(** Inversion of one monadic step of a computation known to return. *)
Ltac ok_step H :=
  lazymatch type of H with
  | (_ ≫= _) = Ok _ =>
      let x := fresh "x" in let Hx := fresh "Hx" in
      apply bind_Ok in H; destruct H as (x & Hx & H)
  | (if ?b then _ else _) = Ok _ =>
      let Hb := fresh "Hb" in destruct b eqn:Hb
  | Raise _ = Ok _ => discriminate H
  | Ok _ = Ok _ => injection H as H
  end.

Lemma has_class_quantile c :
  py_in_strs c valid_classes = true →
  py_eq_str c "bin" = false → py_eq_str c "named" = false →
  py_eq_str c "point" = false → py_eq_str c "sample" = false →
  py_eq_str c "quantile" = true.
Proof.
  unfold py_in_strs, valid_classes. cbn [existsb].
  intros H H1 H2 H3 H4.
  by rewrite H1, H2, H3, H4, !orb_false_l, orb_false_r in H.
Qed.

(** The loop body appends exactly the rows of the table, whatever was
    collected before. *)
Lemma prediction_rows_table e rows out :
  prediction_rows e rows = Ok out → out = rows ++ entry_table e.
Proof.
  unfold prediction_rows, BIN_DISTRIBUTION_CLASS, NAMED_DISTRIBUTION_CLASS,
    POINT_PREDICTION_CLASS, SAMPLE_PREDICTION_CLASS.
  intros H. repeat ok_step H; subst out.
  all: match goal with Hc : negb _ = false |- _ => apply negb_false_iff in Hc end.
  all: try match goal with
       | Hc : py_in_strs ?c _ = true, H1 : _ = false, H2 : _ = false,
         H3 : _ = false, H4 : _ = false |- _ =>
           pose proof (has_class_quantile c Hc H1 H2 H3 H4)
       end.
  all: repeat match goal with
       | Hp : param_or_empty _ _ = Ok _ |- _ => apply param_or_empty_Ok in Hp; subst
       end.
  all: unfold entry_table, has_class, field, elements.
  all: repeat match goal with
       | Hx : ?t = Ok _ |- context [?t] => rewrite Hx
       | Hx : ?t = true |- context [?t] => rewrite Hx
       | Hx : ?t = false |- context [?t] => rewrite Hx
       end.
  all: by rewrite ?append_each_app, ?fmap_zip.
Qed.

(** Whether the loop body raises, and what, does not depend on the rows
    collected so far. *)
Lemma prediction_rows_acc e rows :
  prediction_rows e rows = rs ← prediction_rows e []; Ok (rows ++ rs).
Proof.
  unfold prediction_rows, param_or_empty.
  repeat match goal with
         | |- context [mbind _ ?r] =>
             lazymatch r with
             | py_getitem _ _ => destruct r eqn:?
             | py_iter _ => destruct r eqn:?
             | py_contains _ _ => destruct r eqn:?
             end; cbn [mbind result_bind]
         | |- context [if ?b then _ else _] => destruct b eqn:?; cbn [mbind result_bind]
         end.
  all: try reflexivity.
  all: by rewrite !append_each_app.
Qed.

Lemma accepted_rows e rows :
  accepted e → prediction_rows e rows = Ok (rows ++ entry_table e).
Proof.
  intros [rs Hrs]. rewrite prediction_rows_acc, Hrs. cbn.
  apply prediction_rows_table in Hrs. by subst rs.
Qed.

Lemma predictions_loop_Ok es rows out :
  predictions_loop es rows = Ok out →
  out = rows ++ concat (entry_table <$> es) ∧ Forall accepted es.
Proof.
  revert rows. induction es as [|e es IH]; intros rows; cbn [predictions_loop].
  - intros [= <-]. by rewrite app_nil_r.
  - intros H. ok_step H. apply IH in H as [-> Hes].
    assert (accepted e) as He.
    { rewrite prediction_rows_acc in Hx. ok_step Hx. by eexists. }
    apply prediction_rows_table in Hx as ->.
    split; [|by constructor]. cbn. by rewrite <- app_assoc.
Qed.

Lemma predictions_loop_accepted es rows :
  Forall accepted es →
  predictions_loop es rows = Ok (rows ++ concat (entry_table <$> es)).
Proof.
  intros Hes. revert rows. induction Hes as [|e es He _ IH]; intros rows; cbn.
  - by rewrite app_nil_r.
  - rewrite (accepted_rows _ rows He). cbn. by rewrite IH, <- app_assoc.
Qed.

Lemma predictions_loop_app es1 es2 rows :
  predictions_loop (es1 ++ es2) rows =
  rows' ← predictions_loop es1 rows; predictions_loop es2 rows'.
Proof.
  revert rows. induction es1 as [|e es1 IH]; intros rows; cbn; [done|].
  destruct (prediction_rows e rows); cbn; [apply IH | done].
Qed.

Lemma entry_table_length e : length (entry_table e) = entry_cardinality e.
Proof.
  unfold entry_table, entry_cardinality.
  repeat case_match; by rewrite ?length_zip_with, ?length_fmap.
Qed.

(** What the function does up to the loop. *)
Lemma csv_rows_Ok d rows :
  csv_rows_from_json_io_dict d = Ok rows →
  predictions_loop (entries d) [CSV_HEADER] = Ok rows.
Proof.
  unfold csv_rows_from_json_io_dict, entries, field, elements. intros H.
  repeat ok_step H. by rewrite Hx0, Hx1.
Qed.

Lemma length_concat_sum {A} (ls : list (list A)) :
  length (concat ls) = sum_list (length <$> ls).
Proof.
  induction ls as [|l ls IH]; cbn; [done|]. by rewrite length_app, IH.
Qed.

(** The function returns the header followed by the table rows of every
    entry, entry after entry. *)
Lemma csv_rows_table d rows :
  csv_rows_from_json_io_dict d = Ok rows →
  rows = CSV_HEADER :: concat (entry_table <$> entries d).
Proof. intros H%csv_rows_Ok%predictions_loop_Ok. by destruct H as [-> _]. Qed.

Lemma parallel_cardinality e :
  parallel_arrays e → entry_cardinality e = entry_cardinality_first_array e.
Proof.
  unfold parallel_arrays, entry_cardinality, entry_cardinality_first_array.
  intros [Hbin Hquantile]. repeat case_match; try done.
  - rewrite Hbin by done. lia.
  - rewrite Hquantile by done. lia.
Qed.

(** C1, as amended: whenever the conversion returns, the first row is the
    header of 12 columns, and the number of rows is one plus, for each entry,
    the number of (cat, prob) pairs of a bin entry, the number of samples of
    a sample entry, the number of (quantile, value) pairs of a quantile
    entry, and one for a named or point entry.  The number of pairs is the
    length of the shorter of the two arrays; when the two arrays of every bin
    and quantile entry are as long as each other, it is the number of
    categories, respectively of quantiles. *)
Theorem csv_row_count d rows :
  csv_rows_from_json_io_dict d = Ok rows →
  rows !! 0%nat = Some CSV_HEADER ∧
  length CSV_HEADER = 12%nat ∧
  length rows = (1 + sum_list (entry_cardinality <$> entries d))%nat ∧
  (Forall parallel_arrays (entries d) →
   length rows = (1 + sum_list (entry_cardinality_first_array <$> entries d))%nat).
Proof.
  intros ->%csv_rows_table.
  assert (length (CSV_HEADER :: concat (entry_table <$> entries d)) =
          (1 + sum_list (entry_cardinality <$> entries d))%nat) as Hcount.
  { cbn [length]. rewrite length_concat_sum, <- list_fmap_compose.
    f_equal. f_equal. apply list_fmap_ext. intros _ e _. apply entry_table_length. }
  split_and!; [done..|].
  intros Hparallel. rewrite Hcount. f_equal. f_equal.
  apply Forall_fmap_ext_1. eapply Forall_impl; [done|]. apply parallel_cardinality.
Qed.

Lemma csv_row_count_witness :
  ∃ rows, csv_rows_from_json_io_dict five_classes_dict = Ok rows ∧
          rows !! 0%nat = Some CSV_HEADER ∧
          length CSV_HEADER = 12%nat ∧
          length rows = (1 + (1 + 1 + 3 + 2 + 1))%nat.
Proof.
  exists (CSV_HEADER :: concat (entry_table <$> entries five_classes_dict)).
  assert (csv_rows_from_json_io_dict five_classes_dict =
          Ok (CSV_HEADER :: concat (entry_table <$> entries five_classes_dict))) as H
    by (vm_compute; reflexivity).
  destruct (csv_row_count _ _ H) as (Hhead & Hcols & Hcount & _).
  split; [exact H|]. split; [exact Hhead|]. split; [exact Hcols | exact Hcount].
Defined.

(** C1, as stated, fails: a bin entry with two categories and one
    probability is accepted and contributes one row, not two. *)
Lemma csv_row_count_by_categories_fails :
  csv_rows_from_json_io_dict uneven_bin_dict = Ok uneven_bin_rows ∧
  length uneven_bin_rows ≠
    (1 + sum_list (entry_cardinality_first_array <$> entries uneven_bin_dict))%nat.
Proof. split; [by vm_compute | by vm_compute]. Qed.

Lemma py_getitem_contains d key v :
  py_getitem d key = Ok v → py_contains key d = Ok true.
Proof.
  destruct d; try discriminate. cbn.
  case_bool_decide as Hin; [done|]. by rewrite (dict_get_None _ _ Hin).
Qed.


Lemma csv_rows_loop d es :
  py_getitem d "predictions" = Ok (JList es) →
  csv_rows_from_json_io_dict d = predictions_loop es [CSV_HEADER].
Proof.
  intros H. unfold csv_rows_from_json_io_dict.
  by rewrite (py_getitem_contains _ _ _ H), H.
Qed.




(** Within an entry, row [j] holds element [j] of each array. *)
Lemma entry_table_positions e j r :
  entry_table e !! j = Some r →
  let payload := field e "prediction" in
  (has_class e "bin" = true →
   r !! 4%nat = elements (field payload "cat") !! j ∧
   r !! 5%nat = elements (field payload "prob") !! j) ∧
  (has_class e "sample" = true →
   r !! 6%nat = elements (field payload "sample") !! j) ∧
  (has_class e "quantile" = true →
   r !! 7%nat = elements (field payload "quantile") !! j ∧
   r !! 3%nat = elements (field payload "value") !! j).
Proof.
  intros Hr. cbn zeta. unfold entry_table in Hr. cbn zeta in Hr.
  assert (∀ c c', has_class e c = true → has_class e c' = true → c = c') as Hone.
  { unfold has_class. intros c c' ?%py_eq_str_true ?%py_eq_str_true. congruence. }
  split_and!; intros Hc; rewrite ?Hc in Hr.
  - apply lookup_zip_with_Some in Hr as (c & p & -> & -> & ->). done.
  - repeat case_match;
      try match goal with
          | H : has_class e _ = true |- _ => by specialize (Hone _ _ Hc H)
          end.
    apply list_lookup_fmap_Some in Hr as (x & -> & ->). done.
  - repeat case_match;
      try match goal with
          | H : has_class e _ = true |- _ => by specialize (Hone _ _ Hc H)
          end.
    apply lookup_zip_with_Some in Hr as (q & v & -> & -> & ->). done.
Qed.

(** C9: the result is a function of the argument alone, and when the
    conversion returns, its rows are the header followed by the rows of the
    first entry, then those of the second, and so on in the order of the
    predictions array; within the rows of one entry, row [j] holds element
    [j] of the entry's arrays. *)
Theorem csv_rows_order_preserving d rows :
  csv_rows_from_json_io_dict d = Ok rows →
  (∀ rows', csv_rows_from_json_io_dict d = Ok rows' → rows' = rows) ∧
  rows = CSV_HEADER :: concat (entry_table <$> entries d) ∧
  (∀ i e, entries d !! i = Some e →
     rows = CSV_HEADER :: concat (entry_table <$> take i (entries d))
              ++ entry_table e
              ++ concat (entry_table <$> drop (S i) (entries d))) ∧
  (∀ e j r, entry_table e !! j = Some r →
     let payload := field e "prediction" in
     (has_class e "bin" = true →
      r !! 4%nat = elements (field payload "cat") !! j ∧
      r !! 5%nat = elements (field payload "prob") !! j) ∧
     (has_class e "sample" = true →
      r !! 6%nat = elements (field payload "sample") !! j) ∧
     (has_class e "quantile" = true →
      r !! 7%nat = elements (field payload "quantile") !! j ∧
      r !! 3%nat = elements (field payload "value") !! j)).
Proof.
  intros H. split_and!.
  - intros rows' H'. congruence.
  - by apply csv_rows_table.
  - intros i e Hi. rewrite (csv_rows_table _ _ H).
    rewrite <- (take_drop_middle _ _ _ Hi) at 1.
    by rewrite fmap_app, concat_app.
  - apply entry_table_positions.
Qed.

Lemma csv_rows_order_preserving_witness :
  csv_rows_from_json_io_dict five_classes_dict =
  Ok (CSV_HEADER :: concat (entry_table <$> entries five_classes_dict)).
Proof.
  assert (∃ rows, csv_rows_from_json_io_dict five_classes_dict = Ok rows) as [rows H]
    by (eexists; vm_compute; reflexivity).
  rewrite H. f_equal.
  exact (proj1 (proj2 (csv_rows_order_preserving _ _ H))).
Defined.

(** C10: a dict without the key 'predictions' makes the function raise
    its "no predictions section" error; no row is returned. *)
Theorem no_predictions_section kvs :
  "predictions" ∉ dict_keys kvs →
  csv_rows_from_json_io_dict (JDict kvs) = Raise (RuntimeError NoPredictionsSection).
Proof.
  intros Hnotin. unfold csv_rows_from_json_io_dict. cbn.
  by rewrite bool_decide_eq_false_2.
Qed.

Lemma no_predictions_section_witness :
  csv_rows_from_json_io_dict (JDict [("meta", JDict [])]) =
  Raise (RuntimeError NoPredictionsSection).
Proof. apply no_predictions_section. apply (bool_decide_unpack _). by vm_compute. Defined.

End CsvIoSpec.

(** * Properties of the resource proxies *)

Module ConnectionSpec.
Import Connection.

(** ** Resource locators *)

Lemma split_nonnil sep s : split sep s ≠ [].
Proof.
  destruct s as [|c s]; cbn [split]; [done|].
  destruct (Ascii.eqb c sep); [done|]. by destruct (split sep s).
Qed.

Lemma append_nil_l (s : string) : ("" ++ s)%string = s.
Proof. reflexivity. Qed.

Lemma append_cons c (a b : string) : (String c a ++ b)%string = String c (a ++ b)%string.
Proof. reflexivity. Qed.

Lemma split_app sep a b :
  split sep (a ++ String sep b)%string = split sep a ++ split sep b.
Proof.
  induction a as [|c a IH]; rewrite ?append_nil_l, ?append_cons; cbn [split].
  - by rewrite Ascii.eqb_refl.
  - destruct (Ascii.eqb c sep); [by rewrite IH|].
    rewrite IH. pose proof (split_nonnil sep a). by destruct (split sep a).
Qed.

Lemma split_slashes k : split "/" (slashes k) = replicate (S k) EmptyString.
Proof.
  induction k as [|k IH]; cbn [split slashes]; [done|].
  by rewrite Ascii.eqb_refl, IH.
Qed.

Lemma split_free_slashes s k :
  free_of "/" s →
  split "/" (s ++ slashes k)%string = s :: replicate k EmptyString.
Proof.
  unfold free_of.
  induction s as [|c s IH]; rewrite ?append_nil_l, ?append_cons;
    cbn [split list_ascii_of_string].
  - intros _. by rewrite split_slashes.
  - intros [Hc Hs]%Forall_cons. by rewrite Hc, (IH Hs).
Qed.

Lemma filter_nonempty_replicate k :
  filter (λ split, nonempty split = true) (replicate k EmptyString) = [].
Proof.
  induction k as [|k IH]; cbn [replicate]; [done|].
  by rewrite filter_cons_False.
Qed.

(** The last non-empty segment of a locator. *)
Lemma last_segment base seg k :
  free_of "/" seg → nonempty seg = true →
  last (filter (λ split, nonempty split = true)
          (split "/" (base ++ "/" ++ seg ++ slashes k)%string)) = Some seg.
Proof.
  intros Hfree Hne.
  change (base ++ "/" ++ seg ++ slashes k)%string
    with (base ++ String "/" (seg ++ slashes k))%string.
  rewrite split_app, (split_free_slashes _ _ Hfree), filter_app.
  rewrite filter_cons_True by done.
  rewrite filter_nonempty_replicate. apply last_snoc.
Qed.

Lemma lstrip_plain cs : Forall plain_digit cs → lstrip cs = cs.
Proof. destruct 1 as [|c cs (Hc & _) _]; cbn [lstrip]; [done|]. by rewrite Hc. Qed.

Lemma strip_plain cs : Forall plain_digit cs → strip cs = cs.
Proof.
  intros H. unfold strip. rewrite (lstrip_plain _ H).
  rewrite lstrip_plain by by apply Forall_rev. apply rev_involutive.
Qed.

Lemma plain_digit_char (c : ascii) (d : nat) :
  is_space c = false → Ascii.eqb c "/" = false → Ascii.eqb c "-" = false →
  Ascii.eqb c "+" = false → digit_of c = Some (Z.of_nat d) → (d <? 10)%nat = true →
  plain_digit c.
Proof. intros ????? ?%Nat.ltb_lt. unfold plain_digit. eauto 10. Qed.

Lemma uint_chars_plain d :
  Forall plain_digit (list_ascii_of_string (NilEmpty.string_of_uint d)).
Proof.
  induction d; cbn [NilEmpty.string_of_uint list_ascii_of_string]; constructor; try done.
  - by apply (plain_digit_char _ 0).
  - by apply (plain_digit_char _ 1).
  - by apply (plain_digit_char _ 2).
  - by apply (plain_digit_char _ 3).
  - by apply (plain_digit_char _ 4).
  - by apply (plain_digit_char _ 5).
  - by apply (plain_digit_char _ 6).
  - by apply (plain_digit_char _ 7).
  - by apply (plain_digit_char _ 8).
  - by apply (plain_digit_char _ 9).
Qed.

Lemma uint_free_of_slash d : free_of "/" (NilEmpty.string_of_uint d).
Proof.
  unfold free_of. eapply Forall_impl; [apply uint_chars_plain|].
  by intros c (_ & ? & _).
Qed.

(** Reading the digits of [d] after an accumulated value [acc]. *)
Lemma int_digits_uint d acc after_digit :
  d ≠ Nil ∨ after_digit = true →
  int_digits (list_ascii_of_string (NilEmpty.string_of_uint d)) (Z.of_nat acc) after_digit
  = Some (Z.of_nat (Nat.of_uint_acc d acc)).
Proof.
  revert acc after_digit.
  induction d as [|d IH|d IH|d IH|d IH|d IH|d IH|d IH|d IH|d IH|d IH];
    intros acc after_digit Hd;
    cbn [NilEmpty.string_of_uint list_ascii_of_string int_digits Nat.of_uint_acc].
  { destruct Hd as [?| ->]; done. }
  all: match goal with
       | |- context [digit_of ?c] =>
           let v := eval vm_compute in (digit_of c) in change (digit_of c) with v
       end; cbv iota.
  all: rewrite <- (IH _ true) by (by right); f_equal; rewrite Nat.tail_mul_spec; lia.
Qed.

Lemma py_int_uint d :
  d ≠ Nil → py_int (NilEmpty.string_of_uint d) = Ok (Z.of_nat (Nat.of_uint d)).
Proof.
  intros Hd. unfold py_int.
  pose proof (uint_chars_plain d) as Hplain.
  rewrite (strip_plain _ Hplain).
  pose proof (int_digits_uint d 0 false (or_introl Hd)) as Hdigits.
  destruct Hplain as [|c cs (_ & _ & Hminus & Hplus & _) _].
  - destruct d; done.
  - rewrite Hminus, Hplus. change (Z.of_nat 0) with 0%Z in Hdigits.
    by rewrite Hdigits.
Qed.

Lemma decimal_cases n :
  (n = 0%nat ∧ decimal n = "0") ∨
  (∃ d, d ≠ Nil ∧ decimal n = NilEmpty.string_of_uint d ∧ Nat.of_uint d = n).
Proof.
  unfold decimal, NilZero.string_of_uint.
  pose proof (DecimalNat.Unsigned.of_to n) as Hn.
  destruct (Nat.to_uint n) eqn:Hd; [left; by rewrite <- Hn|..].
  all: right; eexists; split_and!; [|reflexivity|exact Hn]; done.
Qed.

Lemma py_int_decimal n : py_int (decimal n) = Ok (Z.of_nat n).
Proof.
  destruct (decimal_cases n) as [[-> ->] | (d & Hd & -> & <-)]; [done|].
  by apply py_int_uint.
Qed.

Lemma decimal_free_of_slash n : free_of "/" (decimal n).
Proof.
  destruct (decimal_cases n) as [[-> ->] | (d & Hd & -> & <-)].
  - by repeat constructor.
  - apply uint_free_of_slash.
Qed.

Lemma decimal_nonempty n : nonempty (decimal n) = true.
Proof.
  destruct (decimal_cases n) as [[-> ->] | (d & Hd & -> & <-)]; [done|].
  by destruct d.
Qed.

(** C3: the id of a locator [<base>/<N>] followed by any number of
    slashes (none: no trailing slash; one: the usual form) is [N], whatever
    the base is, empty segments included. *)
Theorem id_for_uri_locator base n k : id_for_uri (locator base n k) = Ok (Z.of_nat n).
Proof.
  unfold id_for_uri, locator.
  rewrite (last_segment base (decimal n) k (decimal_free_of_slash n) (decimal_nonempty n)).
  apply py_int_decimal.
Qed.

Lemma id_for_uri_locator_witness :
  id_for_uri "http://example.com/api/forecast/71/" = Ok 71%Z ∧
  id_for_uri "https://zoltardata.com/api/model/5" = Ok 5%Z ∧
  id_for_uri "https://zoltardata.com//api/project//3//" = Ok 3%Z.
Proof.
  split_and!.
  - exact (id_for_uri_locator "http://example.com/api/forecast" 71 1).
  - exact (id_for_uri_locator "https://zoltardata.com/api/model" 5 0).
  - exact (id_for_uri_locator "https://zoltardata.com//api/project/" 3 2).
Defined.

(** ** The snapshot cache *)

Section WithTransport.

Variable send : list request → request → result response.
Variable py_str : jvalue → string.

(** Unfolds the monadic operations of a method body. *)
Ltac unfold_monad :=
  unfold json, refresh, json_for_uri, http, get_self, get_connection, set__json,
    set_connection, response_json, session_token, raise, lift in *;
  unfold mbind, mret, M_bind, M_ret in *; cbn beta iota in *.

(** What [json_for_uri] does when the connection has a session. *)
Lemma json_for_uri_session uri st s :
  session (zoltar_connection st) = Some s →
  ∃ r, json_for_uri send uri st =
       (r, {| zoltar_connection := zoltar_connection st; resource := resource st;
              sent := sent st ++ [fetch_request s uri] |}).
Proof.
  intros Hs. unfold_monad. rewrite Hs. unfold fetch_request.
  repeat case_match; simplify_eq; eauto.
Qed.

(** [json_for_uri] never touches the connection or the resource. *)
Lemma json_for_uri_frame uri st r st' :
  json_for_uri send uri st = (r, st') →
  zoltar_connection st' = zoltar_connection st ∧ resource st' = resource st.
Proof. unfold_monad. intros H. repeat case_match; by simplify_eq. Qed.

(** C6: when [refresh], or a read of the [json] property, ends in an
    exception, the snapshot held by the proxy is the one it held before. *)
Theorem failed_fetch_keeps_snapshot st e st' :
  refresh send st = (Raise e, st') ∨ json send st = (Raise e, st') →
  _json (resource st') = _json (resource st).
Proof.
  intros [H|H]; unfold_monad; repeat case_match; by simplify_eq.
Qed.

(** A read of [json] on a proxy that holds a truthy snapshot returns it
    and changes nothing. *)
Lemma json_cached st :
  py_truthy (_json (resource st)) = true →
  json send st = (Ok (_json (resource st)), st).
Proof. intros H. unfold_monad. by rewrite H. Qed.

(** A read of [json] that returns, on a proxy that holds no snapshot. *)
Lemma json_first_read st j st' :
  _json (resource st) = JNull →
  json send st = (Ok j, st') →
  ∃ s, session (zoltar_connection st) = Some s ∧
       st' = {| zoltar_connection := zoltar_connection st;
                resource := {| uri := uri (resource st); _json := j |};
                sent := sent st ++ [fetch_request s (uri (resource st))] |}.
Proof.
  intros Hnone H. unfold_monad. rewrite Hnone in H. cbn [py_truthy] in H.
  unfold fetch_request. repeat case_match; simplify_eq. eauto.
Qed.

(** C4, as amended: on a proxy constructed without a snapshot, a first
    read of [json] that returns a truthy snapshot has issued exactly one
    request, the GET of the proxy's uri through the connection's session;
    the snapshot is cached, every later read returns it and leaves the state,
    hence the log of requests, as it is; [refresh] on a connection with a
    session issues one request more. *)
Theorem json_fetches_once st j st' :
  _json (resource st) = JNull →
  json send st = (Ok j, st') →
  py_truthy j = true →
  (∃ s, session (zoltar_connection st) = Some s ∧
        sent st' = sent st ++ [fetch_request s (uri (resource st))]) ∧
  _json (resource st') = j ∧
  json send st' = (Ok j, st') ∧
  (∀ n, Nat.iter n (λ st, (json send st).2) st' = st') ∧
  length (sent (refresh send st').2) = S (length (sent st')).
Proof.
  intros Hnone Hjson Htruthy.
  destruct (json_first_read _ _ _ Hnone Hjson) as (s & Hs & ->).
  set (st' := {| zoltar_connection := _ |}).
  assert (json send st' = (Ok j, st')) as Hagain by by apply json_cached.
  split_and!; [by eauto|done|done|..].
  - induction n as [|n IH]; [done|]. by rewrite Nat.iter_succ, IH, Hagain.
  - unfold refresh, get_self, set__json. unfold mbind, mret, M_bind, M_ret. cbn beta.
    destruct (json_for_uri_session (uri (resource st')) st' s Hs) as [r ->].
    destruct r; cbn [sent snd]; rewrite length_app; cbn; lia.
Qed.

(** C8: on a job whose snapshot has an integer status, [status_as_str]
    returns the name the table gives for 0 to 5 and raises the [KeyError] of
    the lookup for any other integer; no two codes share a name. *)
Theorem status_as_str_mapping st j st' n :
  json send st = (Ok j, st') →
  py_getitem j "status" = Ok (JInt n) →
  (∀ name, (n, name) ∈ [(0%Z, "PENDING"); (1%Z, "CLOUD_FILE_UPLOADED"); (2%Z, "QUEUED");
                         (3%Z, "CLOUD_FILE_DOWNLOADED"); (4%Z, "SUCCESS"); (5%Z, "FAILED")] →
     status_as_str send st = (Ok name, st')) ∧
  ((n < 0 ∨ 5 < n)%Z → status_as_str send st = (Raise (KeyError (JInt n)), st')) ∧
  (∀ m name, STATUS_ID_TO_STR !! m = Some name → STATUS_ID_TO_STR !! n = Some name → m = n).
Proof.
  intros Hjson Hstatus.
  assert (status_as_str send st = (status_lookup (JInt n), st')) as ->.
  { unfold status_as_str, lift. unfold mbind, M_bind. by rewrite Hjson, Hstatus. }
  unfold status_lookup, STATUS_ID_TO_STR. split_and!.
  - intros name Hin. repeat (apply elem_of_cons in Hin as [[= -> ->]|Hin]; [done|]).
    by apply elem_of_nil in Hin.
  - intros Hn. by rewrite !lookup_insert_ne, lookup_empty by lia.
  - intros m name Hm Hn.
    repeat (rewrite lookup_insert in Hm; case_decide; simplify_eq);
      repeat (rewrite lookup_insert in Hn; case_decide; simplify_eq); done.
Qed.

(** C5: [create_model] on a configuration whose set of keys is not the
    expected one raises the "Wrong keys" error and leaves the state as it
    was, so no request has been issued; a configuration that lacks one of the
    expected keys is such a configuration. *)
Theorem create_model_wrong_keys kvs st :
  (list_to_set (dict_keys kvs) ≠ expected_keys →
   create_model send py_str (JDict kvs) st =
   (Raise (RuntimeError (WrongKeys expected_keys (list_to_set (dict_keys kvs)))), st)) ∧
  (∀ key, key ∈ expected_keys → key ∉ dict_keys kvs →
   create_model send py_str (JDict kvs) st =
   (Raise (RuntimeError (WrongKeys expected_keys (list_to_set (dict_keys kvs)))), st)).
Proof.
  assert (list_to_set (dict_keys kvs) ≠ expected_keys →
          create_model send py_str (JDict kvs) st =
          (Raise (RuntimeError (WrongKeys expected_keys (list_to_set (dict_keys kvs)))), st))
    as Hwrong.
  { intros Hne. unfold create_model, lift, raise, actual_keys.
    unfold mbind, M_bind. by rewrite bool_decide_eq_false_2. }
  split; [done|].
  intros key Hexpected Hmissing. apply Hwrong. intros Heq.
  rewrite <- Heq, elem_of_list_to_set in Hexpected. done.
Qed.

(** C7: [is_token_expired] is true of every session, so on a connection
    with a session [re_authenticate_if_necessary] is [authenticate] applied
    to the stored credentials; when the token request is answered with 200
    and a token, the connection ends up with a new session holding that
    token. *)
Theorem re_authenticate_always st s :
  (∀ s', is_token_expired s' = true) ∧
  (session (zoltar_connection st) = Some s →
   let c := zoltar_connection st in
   re_authenticate_if_necessary send st = authenticate send (username c) (password c) st ∧
   ∀ r j t,
     send (sent st) (token_request c) = Ok r →
     status_code r = 200%Z → json_body r = Some j → py_getitem j "token" = Ok t →
     re_authenticate_if_necessary send st =
     (Ok (), {| zoltar_connection := {| host := host c; username := username c;
                                        password := password c;
                                        session := Some {| token := t |} |};
                resource := resource st;
                sent := sent st ++ [token_request c] |})).
Proof.
  split; [done|]. intros Hs c. subst c.
  assert (re_authenticate_if_necessary send st =
          authenticate send (username (zoltar_connection st))
            (password (zoltar_connection st)) st) as Hre.
  { unfold re_authenticate_if_necessary, get_connection. unfold mbind, M_bind.
    by rewrite Hs. }
  split; [done|].
  intros r j t Hsend Hcode Hbody Htoken. rewrite Hre.
  unfold authenticate, ZoltarSession__init__, _get_token. unfold_monad.
  cbn [zoltar_connection sent host username password resource].
  unfold token_request in Hsend. rewrite Hsend, Hcode, Hbody, Htoken. done.
Qed.

End WithTransport.

(** ** The theorems at the sample servers *)

Lemma failed_fetch_keeps_snapshot_witness :
  ∃ e st', refresh failing_server cached_job = (Raise e, st') ∧
           sent st' ≠ [] ∧ _json (resource st') = job_json.
Proof.
  exists (RuntimeError (JsonForUriStatus 500 "Server Error (500)")),
         (refresh failing_server cached_job).2.
  split; [reflexivity|]. split; [discriminate|].
  exact (failed_fetch_keeps_snapshot failing_server cached_job _ _ (or_introl eq_refl)).
Defined.

Lemma json_fetches_once_witness :
  ∃ st', json job_server fresh_job = (Ok job_json, st') ∧
         length (sent st') = 1%nat ∧
         json job_server st' = (Ok job_json, st') ∧
         length (sent (refresh job_server st').2) = 2%nat.
Proof.
  exists (json job_server fresh_job).2.
  destruct (json_fetches_once job_server fresh_job job_json
              (json job_server fresh_job).2 eq_refl eq_refl eq_refl)
    as ((s & _ & Hsent) & _ & Hagain & _ & Hrefresh).
  split; [reflexivity|]. split; [reflexivity|]. split; [exact Hagain | exact Hrefresh].
Defined.

(** C4, as stated, fails.  When the server answers with an empty JSON
    object, the first read of [json] on a fresh proxy fetches it, and the
    second read fetches again; when the server answers 500, the first read
    raises after one request, and the second read issues another. *)
Lemma json_refetches_empty_snapshot :
  ((json empty_object_server fresh_job).1 = Ok (JDict []) ∧
   length (sent (json empty_object_server fresh_job).2) = 1%nat ∧
   (json empty_object_server (json empty_object_server fresh_job).2).1 = Ok (JDict []) ∧
   length (sent (json empty_object_server (json empty_object_server fresh_job).2).2)
   = 2%nat) ∧
  ((json failing_server fresh_job).1 =
     Raise (RuntimeError (JsonForUriStatus 500 "Server Error (500)")) ∧
   length (sent (json failing_server fresh_job).2) = 1%nat ∧
   length (sent (json failing_server (json failing_server fresh_job).2).2) = 2%nat).
Proof. by vm_compute. Qed.

Lemma status_as_str_mapping_witness :
  status_as_str job_server cached_job = (Ok "SUCCESS", cached_job).
Proof.
  refine (proj1 (status_as_str_mapping job_server cached_job job_json cached_job 4
                   eq_refl eq_refl) "SUCCESS" _).
  apply (bool_decide_unpack _). by vm_compute.
Defined.

Lemma create_model_wrong_keys_witness :
  create_model job_server str_of_scalar (JDict incomplete_config) project_state =
  (Raise (RuntimeError (WrongKeys expected_keys
                          (list_to_set (dict_keys incomplete_config)))),
   project_state).
Proof.
  refine (proj2 (create_model_wrong_keys job_server str_of_scalar incomplete_config
                   project_state) "aux_data_url" _ _).
  - apply (bool_decide_unpack _). by vm_compute.
  - apply (bool_decide_unpack _). by vm_compute.
Defined.

Lemma re_authenticate_always_witness :
  re_authenticate_if_necessary job_server cached_job =
  (Ok (), {| zoltar_connection :=
               {| host := "https://zoltardata.com"; username := Some "user";
                  password := Some "secret";
                  session := Some {| token := JStr "fresh-token" |} |};
             resource := resource cached_job;
             sent := sent cached_job ++ [token_request authenticated] |}).
Proof.
  exact (proj2 (proj2 (re_authenticate_always job_server cached_job
                         {| token := JStr "stale-token" |}) eq_refl)
           (ok_response (JDict [("token", JStr "fresh-token")]))
           (JDict [("token", JStr "fresh-token")]) (JStr "fresh-token")
           eq_refl eq_refl eq_refl eq_refl).
Defined.

End ConnectionSpec.

(** * Further properties of the CSV codec *)

Module CsvIoMore.
Import CsvIo CsvShapes CsvIoSpec.

Lemma elem_of_entry_table e r :
  r ∈ entry_table e →
  length r = 12%nat ∧
  column 0 r = field e "unit" ∧ column 1 r = field e "target" ∧
  column 2 r = field e "class" ∧
  blank_columns (unused_columns e) r.
Proof.
  unfold entry_table, unused_columns, blank_columns. intros Hr.
  repeat case_match.
  - apply elem_of_zip_with in Hr as (c & p & -> & _). by repeat constructor.
  - apply list_elem_of_singleton in Hr as ->. by repeat constructor.
  - apply list_elem_of_singleton in Hr as ->. by repeat constructor.
  - apply list_elem_of_fmap in Hr as (x & -> & _). by repeat constructor.
  - apply elem_of_zip_with in Hr as (q & v & -> & _). by repeat constructor.
  - by apply elem_of_nil in Hr.
Qed.

Lemma elem_of_rows d rows i r :
  csv_rows_from_json_io_dict d = Ok rows →
  rows !! S i = Some r →
  ∃ e, e ∈ entries d ∧ accepted e ∧ r ∈ entry_table e.
Proof.
  intros H%csv_rows_Ok%predictions_loop_Ok Hr. destruct H as [-> Hacc].
  cbn in Hr. apply list_elem_of_lookup_2, list_elem_of_In, in_concat in Hr.
  destruct Hr as (rs & Hrs%list_elem_of_In & Hr%list_elem_of_In).
  apply list_elem_of_fmap in Hrs as (e & -> & He).
  exists e. split_and!; [done| |done].
  rewrite Forall_forall in Hacc. by apply Hacc.
Qed.

(** X1: the table is rectangular: every row the conversion returns, the
    header included, has 12 columns. *)
Theorem csv_rows_rectangular d rows :
  csv_rows_from_json_io_dict d = Ok rows →
  Forall (λ r, length r = 12%nat) rows.
Proof.
  intros H. apply Forall_lookup. intros [|i] r Hr.
  - apply csv_rows_table in H as ->. by injection Hr as <-.
  - destruct (elem_of_rows _ _ _ _ H Hr) as (e & _ & _ & Hin).
    by apply elem_of_entry_table in Hin as [? _].
Qed.

Lemma csv_rows_rectangular_witness :
  ∃ rows, csv_rows_from_json_io_dict five_classes_dict = Ok rows ∧
          length rows = 9%nat ∧ Forall (λ r, length r = 12%nat) rows.
Proof.
  exists (CSV_HEADER :: concat (entry_table <$> entries five_classes_dict)).
  assert (csv_rows_from_json_io_dict five_classes_dict =
          Ok (CSV_HEADER :: concat (entry_table <$> entries five_classes_dict))) as H
    by (vm_compute; reflexivity).
  split; [exact H|]. split; [reflexivity|]. exact (csv_rows_rectangular _ _ H).
Defined.

(** X2: every row after the header comes from one entry of the
    predictions array: its first three columns are the unit, target and class
    of that entry, and the columns its class does not use hold the empty
    string. *)
Theorem csv_rows_columns d rows i r :
  csv_rows_from_json_io_dict d = Ok rows →
  rows !! S i = Some r →
  ∃ e, e ∈ entries d ∧
       column 0 r = field e "unit" ∧ column 1 r = field e "target" ∧
       column 2 r = field e "class" ∧
       py_in_strs (column 2 r) valid_classes = true ∧
       blank_columns (unused_columns e) r.
Proof.
  intros H Hr. destruct (elem_of_rows _ _ _ _ H Hr) as (e & He & [rs Hacc] & Hin).
  apply elem_of_entry_table in Hin as (_ & Hunit & Htarget & Hclass & Hblank).
  exists e. split_and!; try done.
  rewrite Hclass. unfold prediction_rows in Hacc. ok_step Hacc.
  unfold field. rewrite Hx. ok_step Hacc; [done|]. by apply negb_false_iff in Hb.
Qed.

Lemma csv_rows_columns_witness :
  ∃ e, e ∈ entries five_classes_dict ∧
       JStr "loc2" = field e "unit" ∧ JStr "pct next week" = field e "target" ∧
       JStr "sample" = field e "class" ∧
       py_in_strs (JStr "sample") valid_classes = true ∧
       blank_columns (unused_columns e)
         [JStr "loc2"; JStr "pct next week"; JStr "sample"; blank; blank; blank; JInt 3;
          blank; blank; blank; blank; blank].
Proof.
  assert (csv_rows_from_json_io_dict five_classes_dict =
          Ok (CSV_HEADER :: concat (entry_table <$> entries five_classes_dict))) as H
    by (vm_compute; reflexivity).
  exact (csv_rows_columns _ _ 6%nat _ H eq_refl).
Defined.

Lemma py_getitem_dict v key x :
  py_getitem v key = Ok x → ∃ kvs, v = JDict kvs ∧ dict_get key kvs = Some x.
Proof.
  destruct v; try discriminate. cbn. destruct (dict_get key kvs) eqn:?; [|done].
  intros [= <-]. eauto.
Qed.

Lemma accepted_shape e : accepted e → entry_shape e.
Proof.
  intros [rs H]. unfold prediction_rows in H.
  ok_step H. ok_step H; [done|]. apply negb_false_iff in Hb. do 3 ok_step H.
  apply py_getitem_dict in Hx as (kvs & -> & Hclass).
  apply py_getitem_dict in Hx0 as (? & [= <-] & Hunit).
  apply py_getitem_dict in Hx1 as (? & [= <-] & Htarget).
  apply py_getitem_dict in Hx2 as (? & [= <-] & Hprediction).
  assert (∃ payload, x2 = JDict payload) as [payload ->].
  { repeat ok_step H;
      match goal with
      | Hp : py_getitem x2 _ = Ok _ |- _ =>
          apply py_getitem_dict in Hp as (? & -> & _); by eauto
      end. }
  unfold entry_shape. eauto 12.
Qed.

(** X3: when the conversion returns, its argument is a dict with the key
    'predictions'; every entry is a dict with a valid class, a unit, a target
    and a prediction that is itself a dict; and unless there is no entry at
    all, the value of 'predictions' is a list. *)
Theorem csv_rows_input_shape d rows :
  csv_rows_from_json_io_dict d = Ok rows →
  ∃ kvs v, d = JDict kvs ∧ dict_get "predictions" kvs = Some v ∧
           py_iter v = Ok (entries d) ∧
           Forall entry_shape (entries d) ∧
           (entries d ≠ [] → v = JList (entries d)).
Proof.
  intros H. pose proof (csv_rows_Ok _ _ H) as [_ Hacc]%predictions_loop_Ok.
  unfold csv_rows_from_json_io_dict in H. do 2 ok_step H; [done|]. do 2 ok_step H.
  apply py_getitem_dict in Hx0 as (kvs & -> & Hget).
  assert (entries (JDict kvs) = x1) as Hentries.
  { unfold entries, field, elements. cbn. by rewrite Hget, Hx1. }
  rewrite Hentries in *. exists kvs, x0. split_and!; try done.
  - eapply Forall_impl; [done|]. apply accepted_shape.
  - intros Hne. destruct x0; try discriminate; cbn in Hx1; injection Hx1 as <-.
    + destruct s as [|c s]; [done|]. apply Forall_cons in Hacc as [Hc _].
      by destruct (accepted_shape _ Hc) as (? & ? & ? & ? & ? & ? & _).
    + done.
    + destruct kvs0 as [|[k w] kvs0]; [done|]. apply Forall_cons in Hacc as [Hc _].
      by destruct (accepted_shape _ Hc) as (? & ? & ? & ? & ? & ? & _).
Qed.

Lemma csv_rows_input_shape_witness :
  ∃ kvs v, five_classes_dict = JDict kvs ∧ dict_get "predictions" kvs = Some v ∧
           py_iter v = Ok (entries five_classes_dict) ∧
           Forall entry_shape (entries five_classes_dict) ∧
           (entries five_classes_dict ≠ [] → v = JList (entries five_classes_dict)).
Proof.
  assert (csv_rows_from_json_io_dict five_classes_dict =
          Ok (CSV_HEADER :: concat (entry_table <$> entries five_classes_dict))) as H
    by (vm_compute; reflexivity).
  exact (csv_rows_input_shape _ _ H).
Defined.

Lemma param_or_empty_dict payload key :
  param_or_empty (JDict payload) key = Ok (named_param (JDict payload) key).
Proof.
  unfold param_or_empty, named_param. cbn [py_contains py_getitem mbind result_bind].
  case_bool_decide as Hin.
  - by destruct (dict_get_Some _ _ Hin) as [x ->].
  - by rewrite (dict_get_None _ _ Hin).
Qed.

(** Evaluates the tests on a literal class. *)
Ltac eval_class :=
  repeat match goal with
         | |- context [py_in_strs (JStr ?c) valid_classes] =>
             let v := eval vm_compute in (py_in_strs (JStr c) valid_classes) in
             change (py_in_strs (JStr c) valid_classes) with v
         | |- context [py_eq_str (JStr ?c) ?k] =>
             let v := eval vm_compute in (py_eq_str (JStr c) k) in
             change (py_eq_str (JStr c) k) with v
         end;
  cbn [negb].

Lemma well_formed_accepted e : well_formed e → accepted e.
Proof.
  destruct 1; unfold accepted, prediction_rows; cbn [py_getitem];
    repeat match goal with
           | H : dict_get _ _ = Some _ |- _ => rewrite H; clear H
           end;
    cbn [mbind result_bind]; eval_class; rewrite ?param_or_empty_dict;
    repeat (cbn [py_getitem];
            match goal with
            | H : dict_get _ _ = Some _ |- _ => rewrite H; clear H
            end);
    cbn [mbind result_bind py_iter]; by eexists.
Qed.

(** X4: a JSON IO dict whose 'predictions' value is a list of entries of
    the documented shapes is converted: the function returns rows, namely the
    header followed by the rows of each entry. *)
Theorem well_formed_converts d ps :
  py_getitem d "predictions" = Ok (JList ps) →
  Forall well_formed ps →
  csv_rows_from_json_io_dict d = Ok (CSV_HEADER :: concat (entry_table <$> ps)).
Proof.
  intros Hd Hwf. rewrite (csv_rows_loop _ _ Hd).
  apply (predictions_loop_accepted ps [CSV_HEADER]).
  eapply Forall_impl; [done|]. apply well_formed_accepted.
Qed.

Lemma well_formed_converts_witness :
  csv_rows_from_json_io_dict uneven_bin_dict = Ok uneven_bin_rows.
Proof.
  refine (well_formed_converts uneven_bin_dict _ eq_refl _).
  constructor; [|constructor].
  by eapply wf_bin.
Defined.

(** X5: converting the concatenation of two predictions arrays returns
    exactly when converting each of them does, and the rows are then those of
    the first followed by those of the second without its header. *)
Theorem csv_rows_concat d1 d2 d ps1 ps2 rows :
  py_getitem d1 "predictions" = Ok (JList ps1) →
  py_getitem d2 "predictions" = Ok (JList ps2) →
  py_getitem d "predictions" = Ok (JList (ps1 ++ ps2)) →
  csv_rows_from_json_io_dict d = Ok rows ↔
  ∃ rows1 rows2, csv_rows_from_json_io_dict d1 = Ok rows1 ∧
                 csv_rows_from_json_io_dict d2 = Ok rows2 ∧
                 rows = rows1 ++ drop 1 rows2.
Proof.
  intros H1 H2 H.
  rewrite (csv_rows_loop _ _ H1), (csv_rows_loop _ _ H2), (csv_rows_loop _ _ H).
  split.
  - intros [-> Hacc]%predictions_loop_Ok.
    apply Forall_app in Hacc as [Hacc1 Hacc2].
    eexists _, _. split_and!; [by apply predictions_loop_accepted..|].
    cbn. by rewrite fmap_app, concat_app, drop_0.
  - intros (rows1 & rows2 & [-> Hacc1]%predictions_loop_Ok
            & [-> Hacc2]%predictions_loop_Ok & ->).
    rewrite predictions_loop_accepted by by apply Forall_app.
    cbn. by rewrite fmap_app, concat_app, drop_0.
Qed.

Lemma csv_rows_concat_witness :
  csv_rows_from_json_io_dict (predictions_dict [point_entry; sample_entry]) =
  Ok (CSV_HEADER :: point_row :: sample_rows).
Proof.
  refine (proj2 (csv_rows_concat (predictions_dict [point_entry])
                   (predictions_dict [sample_entry])
                   (predictions_dict [point_entry; sample_entry])
                   [point_entry] [sample_entry] _ eq_refl eq_refl eq_refl) _).
  exists [CSV_HEADER; point_row], (CSV_HEADER :: sample_rows).
  split; [reflexivity|]. split; reflexivity.
Defined.

Lemma prediction_rows_Raise e rows err :
  prediction_rows e [] = Raise err → prediction_rows e rows = Raise err.
Proof. intros H. by rewrite prediction_rows_acc, H. Qed.

Lemma predictions_loop_first_failure pre bad post rows err :
  Forall accepted pre →
  prediction_rows bad [] = Raise err →
  predictions_loop (pre ++ bad :: post) rows = Raise err.
Proof.
  intros Hpre Hbad. rewrite predictions_loop_app, (predictions_loop_accepted _ _ Hpre).
  cbn. by rewrite (prediction_rows_Raise _ _ _ Hbad).
Qed.

(** X6: an entry on which the conversion raises when it is the only
    entry makes it raise the same exception in any predictions array in which
    the entries before it are accepted, whatever comes after it. *)
Theorem csv_rows_first_failure d pre bad post other err :
  py_getitem d "predictions" = Ok (JList (pre ++ bad :: post)) →
  Forall accepted pre →
  csv_rows_from_json_io_dict (JDict (("predictions", JList [bad]) :: other)) = Raise err →
  csv_rows_from_json_io_dict d = Raise err.
Proof.
  intros Hd Hpre Hbad. rewrite (csv_rows_loop _ _ Hd).
  apply predictions_loop_first_failure; [done|].
  rewrite (csv_rows_loop _ [bad]) in Hbad by done. cbn in Hbad.
  rewrite prediction_rows_acc in Hbad. by destruct (prediction_rows bad []).
Qed.

Lemma csv_rows_first_failure_witness :
  csv_rows_from_json_io_dict
    (predictions_dict
       [point_entry; make_entry "loc1" "pct next week" "sample" [("samples", JList [])];
        JNull]) =
  Raise (KeyError (JStr "sample")).
Proof.
  refine (csv_rows_first_failure
            (predictions_dict
               [point_entry;
                make_entry "loc1" "pct next week" "sample" [("samples", JList [])]; JNull])
            [point_entry]
            (make_entry "loc1" "pct next week" "sample" [("samples", JList [])])
            [JNull] [] _ eq_refl _ eq_refl).
  constructor; [|constructor]. exists [point_row]. reflexivity.
Defined.

(** X7: an entry that is a dict lacking one of the keys 'class', 'unit',
    'target', 'prediction' (its class being valid when present) makes the
    conversion raise the [KeyError] of the first of these keys that is
    missing, when the entries before it are accepted. *)
Theorem csv_rows_missing_key d pre kvs post i key :
  py_getitem d "predictions" = Ok (JList (pre ++ JDict kvs :: post)) →
  Forall accepted pre →
  entry_keys !! i = Some key →
  key ∉ dict_keys kvs →
  (∀ k, k ∈ take i entry_keys → k ∈ dict_keys kvs) →
  (∀ c, dict_get "class" kvs = Some c → py_in_strs c valid_classes = true) →
  csv_rows_from_json_io_dict d = Raise (KeyError (JStr key)).
Proof.
  intros Hd Hpre Hi Hmissing Hbefore Hclass. rewrite (csv_rows_loop _ _ Hd).
  apply predictions_loop_first_failure; [done|].
  apply dict_get_None in Hmissing.
  assert (∀ k, k ∈ take i entry_keys → ∃ v, dict_get k kvs = Some v) as Hget.
  { intros k Hk. by destruct (dict_get_Some _ _ (Hbefore _ Hk)) as [v ->]; eauto. }
  unfold prediction_rows. cbn [py_getitem].
  destruct i as [|[|[|[|i]]]]; cbn in Hi; simplify_eq.
  - by rewrite Hmissing.
  - destruct (Hget "class") as [c Hc]; [set_solver|].
    rewrite Hc. cbn [mbind result_bind]. rewrite (Hclass _ Hc). cbn [negb].
    by rewrite Hmissing.
  - destruct (Hget "class") as [c Hc]; [set_solver|].
    destruct (Hget "unit") as [u Hu]; [set_solver|].
    rewrite Hc. cbn [mbind result_bind]. rewrite (Hclass _ Hc). cbn [negb].
    rewrite Hu. cbn [mbind result_bind]. by rewrite Hmissing.
  - destruct (Hget "class") as [c Hc]; [set_solver|].
    destruct (Hget "unit") as [u Hu]; [set_solver|].
    destruct (Hget "target") as [t Ht]; [set_solver|].
    rewrite Hc. cbn [mbind result_bind]. rewrite (Hclass _ Hc). cbn [negb].
    rewrite Hu. cbn [mbind result_bind]. rewrite Ht. cbn [mbind result_bind].
    by rewrite Hmissing.
Qed.

Lemma csv_rows_missing_key_witness :
  csv_rows_from_json_io_dict
    (predictions_dict
       [JDict [("unit", JStr "loc1"); ("class", JStr "point");
               ("prediction", JDict [("value", JInt 2)])]]) =
  Raise (KeyError (JStr "target")).
Proof.
  refine (csv_rows_missing_key
            (predictions_dict
               [JDict [("unit", JStr "loc1"); ("class", JStr "point");
                       ("prediction", JDict [("value", JInt 2)])]])
            [] [("unit", JStr "loc1"); ("class", JStr "point");
                ("prediction", JDict [("value", JInt 2)])]
            [] 2%nat "target" eq_refl _ eq_refl _ _ _).
  - constructor.
  - apply (bool_decide_unpack _). by vm_compute.
  - intros k Hk. apply (bool_decide_unpack _).
    cbn in Hk. apply elem_of_cons in Hk as [->|Hk]; [by vm_compute|].
    apply list_elem_of_singleton in Hk as ->. by vm_compute.
  - intros c [= <-]. reflexivity.
Defined.

Lemma entries_single d e :
  py_getitem d "predictions" = Ok (JList [e]) → entries d = [e].
Proof. intros H. unfold entries, field, elements. by rewrite H. Qed.

Lemma csv_rows_single d e rows :
  py_getitem d "predictions" = Ok (JList [e]) →
  csv_rows_from_json_io_dict d = Ok rows →
  rows = CSV_HEADER :: entry_table e ∧ accepted e.
Proof.
  intros Hd H. pose proof (csv_rows_Ok _ _ H) as [_ Hacc]%predictions_loop_Ok.
  apply csv_rows_table in H. rewrite (entries_single _ _ Hd) in *.
  cbn in H. rewrite app_nil_r in H. split; [done|]. by apply Forall_inv in Hacc.
Qed.

Lemma has_class_unique e c c' :
  has_class e c = true → has_class e c' = true → c = c'.
Proof. unfold has_class. intros ?%py_eq_str_true ?%py_eq_str_true. congruence. Qed.

Lemma has_class_other e c c' : has_class e c = true → c ≠ c' → has_class e c' = false.
Proof.
  intros Hc Hne. destruct (has_class e c') eqn:Hc'; [|done].
  by destruct (Hne (has_class_unique _ _ _ Hc Hc')).
Qed.

Lemma columns_of_zip_with (i j : nat) (mk : jvalue → jvalue → row) xs ys :
  (∀ x y, column i (mk x y) = x) → (∀ x y, column j (mk x y) = y) →
  (λ r, (column i r, column j r)) <$> zip_with mk xs ys = zip xs ys.
Proof.
  intros Hi Hj. revert ys. induction xs as [|x xs IH]; intros [|y ys]; cbn; [done..|].
  by rewrite Hi, Hj, IH.
Qed.

Lemma columns_of_zip_with_parallel (i j : nat) (mk : jvalue → jvalue → row) xs ys :
  (∀ x y, column i (mk x y) = x) → (∀ x y, column j (mk x y) = y) →
  length xs = length ys →
  column i <$> zip_with mk xs ys = xs ∧ column j <$> zip_with mk xs ys = ys.
Proof.
  intros Hi Hj. revert ys.
  induction xs as [|x xs IH]; intros [|y ys] Hlen; cbn in *; try done.
  destruct (IH ys) as [-> ->]; [lia|]. by rewrite Hi, Hj.
Qed.

(** X8: the arrays of an entry can be read back from its rows.  For a
    predictions array holding one entry: the cat and prob columns of a bin
    entry's rows are its (cat, prob) pairs in order, and are the two arrays
    themselves when these are as long as each other; the sample column of a
    sample entry's rows is its sample array; the quantile and value columns
    of a quantile entry's rows are its (quantile, value) pairs. *)
Theorem csv_rows_recover_arrays d e rows :
  py_getitem d "predictions" = Ok (JList [e]) →
  csv_rows_from_json_io_dict d = Ok rows →
  let payload := field e "prediction" in
  let body := drop 1 rows in
  (has_class e "bin" = true →
   let cats := elements (field payload "cat") in
   let probs := elements (field payload "prob") in
   (λ r, (column 4 r, column 5 r)) <$> body = zip cats probs ∧
   (length cats = length probs → column 4 <$> body = cats ∧ column 5 <$> body = probs)) ∧
  (has_class e "sample" = true →
   column 6 <$> body = elements (field payload "sample")) ∧
  (has_class e "quantile" = true →
   let quantiles := elements (field payload "quantile") in
   let values := elements (field payload "value") in
   (λ r, (column 7 r, column 3 r)) <$> body = zip quantiles values ∧
   (length quantiles = length values →
    column 7 <$> body = quantiles ∧ column 3 <$> body = values)).
Proof.
  intros Hd H. destruct (csv_rows_single _ _ _ Hd H) as [-> _]. cbn zeta.
  cbn [drop]. unfold entry_table. split_and!; intros Hc.
  - rewrite Hc, drop_0.
    split; [by apply columns_of_zip_with | by apply columns_of_zip_with_parallel].
  - rewrite (has_class_other _ _ "bin" Hc), (has_class_other _ _ "named" Hc),
      (has_class_other _ _ "point" Hc), Hc by done.
    cbv iota. rewrite drop_0, <- list_fmap_compose.
    induction (elements (field (field e "prediction") "sample")) as [|x l IH];
      cbn; [done | by rewrite IH].
  - rewrite (has_class_other _ _ "bin" Hc), (has_class_other _ _ "named" Hc),
      (has_class_other _ _ "point" Hc), (has_class_other _ _ "sample" Hc), Hc by done.
    cbv iota. rewrite drop_0.
    split; [by apply columns_of_zip_with | by apply columns_of_zip_with_parallel].
Qed.

Lemma csv_rows_recover_arrays_witness :
  column 6 <$> sample_rows = [JInt 5; JInt 3].
Proof.
  exact (proj1 (proj2 (csv_rows_recover_arrays (predictions_dict [sample_entry])
                         sample_entry (CSV_HEADER :: sample_rows) eq_refl eq_refl))
           eq_refl).
Defined.

Lemma named_param_dict payload key :
  named_param (JDict payload) key = default blank (dict_get key payload).
Proof. unfold named_param. cbn [py_getitem]. by destruct (dict_get key payload). Qed.

(** X9: the row of a named entry.  For a predictions array holding one
    named entry, the conversion returns the header and one row: unit, target,
    class, five empty columns, the family, and param1, param2, param3, each the
    payload's value when the payload has the key and the empty string when it
    has not. *)
Theorem csv_rows_named_entry d e rows :
  py_getitem d "predictions" = Ok (JList [e]) →
  csv_rows_from_json_io_dict d = Ok rows →
  has_class e "named" = true →
  ∃ payload family,
    field e "prediction" = JDict payload ∧
    dict_get "family" payload = Some family ∧
    rows = [CSV_HEADER;
            [field e "unit"; field e "target"; JStr "named"; blank; blank; blank; blank;
             blank; family; default blank (dict_get "param1" payload);
             default blank (dict_get "param2" payload);
             default blank (dict_get "param3" payload)]].
Proof.
  intros Hd H Hc. destruct (csv_rows_single _ _ _ Hd H) as [-> Hacc].
  destruct (accepted_shape _ Hacc)
    as (kvs & c & unit & target & payload & -> & Hclass & _ & Hunit & Htarget & Hpayload).
  assert (c = JStr "named") as ->.
  { unfold has_class, field in Hc. cbn [py_getitem] in Hc. rewrite Hclass in Hc.
    by apply py_eq_str_true in Hc. }
  destruct Hacc as [rs Hrs]. unfold prediction_rows in Hrs. cbn [py_getitem] in Hrs.
  rewrite Hclass in Hrs. cbn [mbind result_bind] in Hrs.
  change (py_in_strs (JStr "named") valid_classes) with true in Hrs.
  change (py_eq_str (JStr "named") BIN_DISTRIBUTION_CLASS) with false in Hrs.
  change (py_eq_str (JStr "named") NAMED_DISTRIBUTION_CLASS) with true in Hrs.
  cbn [negb] in Hrs. rewrite Hunit, Htarget, Hpayload in Hrs.
  cbn [mbind result_bind] in Hrs. ok_step Hrs.
  apply py_getitem_dict in Hx as (? & [= <-] & Hfamily).
  exists payload, x. split_and!.
  - unfold field. cbn [py_getitem]. by rewrite Hpayload.
  - done.
  - unfold entry_table. rewrite (has_class_other _ _ "bin" Hc), Hc by done.
    unfold field. cbn [py_getitem].
    rewrite Hclass, Hunit, Htarget, Hpayload. cbn [py_getitem]. rewrite Hfamily.
    by rewrite !named_param_dict.
Qed.

Lemma csv_rows_named_entry_witness :
  ∃ payload family,
    field (make_entry "loc1" "pct next week" "named"
             [("family", JStr "pois"); ("param1", half)]) "prediction" = JDict payload ∧
    dict_get "family" payload = Some family ∧
    [CSV_HEADER;
     [JStr "loc1"; JStr "pct next week"; JStr "named"; blank; blank; blank; blank; blank;
      JStr "pois"; half; blank; blank]] =
    [CSV_HEADER;
     [field (make_entry "loc1" "pct next week" "named"
               [("family", JStr "pois"); ("param1", half)]) "unit";
      field (make_entry "loc1" "pct next week" "named"
               [("family", JStr "pois"); ("param1", half)]) "target";
      JStr "named"; blank; blank; blank; blank; blank; family;
      default blank (dict_get "param1" payload);
      default blank (dict_get "param2" payload);
      default blank (dict_get "param3" payload)]].
Proof.
  exact (csv_rows_named_entry
           (predictions_dict [make_entry "loc1" "pct next week" "named"
                                [("family", JStr "pois"); ("param1", half)]])
           _ _ eq_refl eq_refl eq_refl).
Defined.

End CsvIoMore.

(** * Further properties of the resource proxies *)

Module ResourcesSpec.
Import Connection Resources ConnectionSpec.

(** ** Resource locators *)

(** X10: a trailing slash does not change what [id_for_uri] returns or
    raises. *)
Theorem id_for_uri_trailing_slash u : id_for_uri (u ++ "/")%string = id_for_uri u.
Proof.
  unfold id_for_uri.
  change (u ++ "/")%string with (u ++ String "/" "")%string.
  rewrite split_app, filter_app. cbn [split].
  rewrite (filter_cons_False _ "") by done. by rewrite filter_nil, app_nil_r.
Qed.

Lemma only_slashes_slashes s : only_slashes s → s = slashes (String.length s).
Proof.
  unfold only_slashes. induction s as [|c s IH]; cbn; [done|].
  intros [-> Hs]%Forall_cons. by rewrite <- (IH Hs).
Qed.

Lemma split_only_empty s :
  Forall (λ w, nonempty w = false) (split "/" s) → only_slashes s.
Proof.
  unfold only_slashes. induction s as [|c s IH]; cbn [split list_ascii_of_string].
  - constructor.
  - destruct (Ascii.eqb_spec c "/") as [->|Hne].
    + intros [_ Hs]%Forall_cons. constructor; auto.
    + pose proof (split_nonnil "/" s). destruct (split "/" s); [done|].
      by intros [? _]%Forall_cons.
Qed.

Lemma py_int_not_IndexError s : py_int s ≠ Raise IndexError.
Proof. unfold py_int. by repeat case_match. Qed.

(** X11: [id_for_uri] raises [IndexError] exactly on the strings made of
    slashes only (the empty string included): those without a non-empty
    segment. *)
Theorem id_for_uri_no_segment u : id_for_uri u = Raise IndexError ↔ only_slashes u.
Proof.
  unfold id_for_uri. split.
  - destruct (last _) as [seg|] eqn:Hlast; [by intros ?%py_int_not_IndexError|].
    intros _. apply last_None in Hlast. apply split_only_empty, Forall_forall.
    intros w Hw. destruct (nonempty w) eqn:Hne; [|done].
    by destruct (filter_nil_not_elem_of _ _ w Hlast).
  - intros ->%only_slashes_slashes.
    by rewrite split_slashes, filter_nonempty_replicate.
Qed.

Lemma id_for_uri_no_segment_witness :
  id_for_uri "" = Raise IndexError ∧ id_for_uri "//" = Raise IndexError.
Proof.
  split.
  - apply (proj2 (id_for_uri_no_segment "")). constructor.
  - apply (proj2 (id_for_uri_no_segment "//")). by repeat constructor.
Defined.

(** X12: [id_for_uri] depends on the last non-empty segment only: for a
    non-empty segment without a slash, the id of [<base>/<segment>] followed
    by any number of slashes is [int(segment)], whatever the base is. *)
Theorem id_for_uri_last_segment base seg k :
  free_of "/" seg → nonempty seg = true →
  id_for_uri (base ++ "/" ++ seg ++ slashes k)%string = py_int seg.
Proof.
  intros Hfree Hne. unfold id_for_uri. by rewrite (last_segment _ _ _ Hfree Hne).
Qed.

Lemma id_for_uri_last_segment_witness :
  id_for_uri "https://zoltardata.com/api/model/0071//" = Ok 71%Z.
Proof.
  refine (id_for_uri_last_segment "https://zoltardata.com/api/model" "0071" 2 _ _).
  - by repeat constructor.
  - reflexivity.
Defined.

Lemma elem_of_lstrip c cs : c ∈ cs → is_space c = false → c ∈ lstrip cs.
Proof.
  induction cs as [|x cs IH]; cbn [lstrip]; [done|].
  intros Hin Hc. destruct (is_space x) eqn:Hx; [|done].
  apply elem_of_cons in Hin as [->|Hin]; [congruence | auto].
Qed.

Lemma elem_of_strip c cs : c ∈ cs → is_space c = false → c ∈ strip cs.
Proof.
  intros Hin Hc. unfold strip.
  apply list_elem_of_In, in_rev. rewrite rev_involutive. apply list_elem_of_In.
  apply elem_of_lstrip; [|done].
  apply list_elem_of_In, in_rev. rewrite rev_involutive. apply list_elem_of_In.
  by apply elem_of_lstrip.
Qed.

Lemma int_digits_not_numeric c cs acc after_digit :
  c ∈ cs → not_numeric c → int_digits cs acc after_digit = None.
Proof.
  intros Hin (Hdigit & _ & Hunderscore & _). revert acc after_digit.
  induction cs as [|x cs IH]; intros acc after_digit; [by apply elem_of_nil in Hin|].
  cbn [int_digits]. apply elem_of_cons in Hin as [<-|Hin].
  - rewrite Hdigit. by destruct (Ascii.eqb_spec c "_").
  - destruct (digit_of x); [by apply IH|].
    destruct (_ && _); [by apply IH | done].
Qed.

Lemma py_int_not_numeric c s :
  c ∈ list_ascii_of_string s → not_numeric c → py_int s = Raise ValueError.
Proof.
  intros Hin Hc. pose proof Hc as (_ & Hspace & _ & Hplus & Hminus).
  apply (elem_of_strip _ _ Hin) in Hspace. unfold py_int.
  destruct (strip (list_ascii_of_string s)) as [|x cs]; [by apply elem_of_nil in Hspace|].
  assert (∀ cs', (x :: cs = cs' ∨ x ≠ c ∧ cs = cs') →
                 int_digits cs' 0 false = None) as Hnone.
  { intros cs' [<-|[Hx <-]]; apply (int_digits_not_numeric c); try done.
    apply elem_of_cons in Hspace as [?|?]; [congruence | done]. }
  destruct (Ascii.eqb_spec x "-") as [->|_]; [rewrite Hnone; [done|right; by split]|].
  destruct (Ascii.eqb_spec x "+") as [->|_]; [rewrite Hnone; [done|right; by split]|].
  rewrite Hnone; [done | by left].
Qed.

(** X13: a locator whose last non-empty segment is an ASCII [str] that
    holds a character which is neither a digit, one of the white space
    characters tab, LF, VT, FF, CR and space, an underscore nor a sign has
    no id: [id_for_uri] raises [ValueError]. *)
Theorem id_for_uri_not_a_number base seg k c :
  free_of "/" seg → ascii_str seg →
  c ∈ list_ascii_of_string seg → not_numeric c →
  id_for_uri (base ++ "/" ++ seg ++ slashes k)%string = Raise ValueError.
Proof.
  intros Hfree _ Hin Hc. unfold id_for_uri.
  rewrite (last_segment _ _ _ Hfree); [by apply (py_int_not_numeric c)|].
  destruct seg; [by apply elem_of_nil in Hin | done].
Qed.

Lemma id_for_uri_not_a_number_witness :
  id_for_uri "https://zoltardata.com/api/project/3/models/" = Raise ValueError ∧
  id_for_uri ("api/model/" ++ String "1" (String "2" (String "031" "")))%string =
  Raise ValueError.
Proof.
  split.
  - refine (id_for_uri_not_a_number "https://zoltardata.com/api/project/3" "models" 1 "m"
              _ _ _ _).
    + by repeat constructor.
    + apply (bool_decide_unpack _). by vm_compute.
    + apply (bool_decide_unpack _). by vm_compute.
    + by repeat split.
  - refine (id_for_uri_not_a_number "api/model" (String "1" (String "2" (String "031" "")))
              0 "031" _ _ _ _).
    + by repeat constructor.
    + apply (bool_decide_unpack _). by vm_compute.
    + apply (bool_decide_unpack _). by vm_compute.
    + by repeat split.
Defined.

(** ** Requests, sessions and snapshots *)

Section WithTransport.

Variable send : list request → request → result response.
Variable py_str : jvalue → string.

(** Unfolds the monadic operations of a method body. *)
Ltac run :=
  unfold projects, Project_models, Project_units, Project_targets, Project_timezeros,
    Model_forecasts, Model_forecast_for_pk, Forecast_timezero, json_item, status_as_str,
    create_model, Connection.delete, re_authenticate_if_necessary, authenticate,
    ZoltarSession__init__, _get_token, json, refresh, json_for_uri, response_json,
    session_token, http, get_self, get_connection, set__json, set_connection, raise,
    lift, after_request, with_credentials in *;
  unfold mbind, mret, M_bind, M_ret in *; cbn beta iota in *.

(** X14: nothing is sent before authentication.  On a connection
    without a session, [json_for_uri], [refresh], the navigation properties,
    [delete], [create_model] (even with the right keys) and
    [re_authenticate_if_necessary] all raise and leave the state, the log of
    requests included, as it was. *)
Theorem unauthenticated_sends_nothing st :
  session (zoltar_connection st) = None →
  (∀ uri, json_for_uri send uri st = (Raise (RuntimeError JsonForUriNoSession), st)) ∧
  refresh send st = (Raise (RuntimeError JsonForUriNoSession), st) ∧
  projects send st = (Raise (RuntimeError JsonForUriNoSession), st) ∧
  Project_models send st = (Raise (RuntimeError JsonForUriNoSession), st) ∧
  Project_units send st = (Raise (RuntimeError JsonForUriNoSession), st) ∧
  Project_targets send st = (Raise (RuntimeError JsonForUriNoSession), st) ∧
  Project_timezeros send st = (Raise (RuntimeError JsonForUriNoSession), st) ∧
  Model_forecasts send st = (Raise (RuntimeError JsonForUriNoSession), st) ∧
  delete send st = (Raise AttributeError, st) ∧
  re_authenticate_if_necessary send st = (Raise AttributeError, st) ∧
  (∀ kvs, list_to_set (dict_keys kvs) = expected_keys →
          create_model send py_str (JDict kvs) st = (Raise AttributeError, st)).
Proof.
  intros Hs. split_and!; try (intros; by run; rewrite Hs).
  intros kvs Hkeys. unfold create_model, actual_keys. run.
  rewrite bool_decide_eq_true_2 by done. cbn [negb]. cbn beta iota. by rewrite Hs.
Qed.

(** X15: [json_for_uri] returns a value exactly when the connection has
    a session and the GET of the uri, sent with the session's token, is
    answered with status 200 and a body that decodes, the value being the
    decoded body; the request is then the only change of the state.  Any
    other status raises the [RuntimeError] that carries the status and the
    text of the response. *)
Theorem json_for_uri_returns uri st :
  (∀ j st', json_for_uri send uri st = (Ok j, st') ↔
            ∃ s r, session (zoltar_connection st) = Some s ∧
                   send (sent st) (fetch_request s uri) = Ok r ∧
                   status_code r = 200%Z ∧ json_body r = Some j ∧
                   st' = after_request (fetch_request s uri) st) ∧
  (∀ s r, session (zoltar_connection st) = Some s →
          send (sent st) (fetch_request s uri) = Ok r →
          status_code r ≠ 200%Z →
          json_for_uri send uri st =
          (Raise (RuntimeError (JsonForUriStatus (status_code r) (text r))),
           after_request (fetch_request s uri) st)).
Proof.
  split.
  - intros j st'. unfold fetch_request. run. split.
    + intros H. repeat case_match; simplify_eq.
      eexists _, _. split_and!; try done.
      by apply negb_false_iff, Z.eqb_eq in H2.
    + intros (s & r & -> & -> & Hcode & -> & ->). by rewrite Hcode.
  - intros s r Hs Hsend Hcode. unfold fetch_request in *. run.
    rewrite Hs, Hsend. by apply Z.eqb_neq in Hcode as ->.
Qed.

(** X16: [refresh] on a connection with a session issues the GET of the
    proxy's uri whatever snapshot the proxy holds, and nothing else; it
    changes neither the connection nor the uri, and when it returns a value
    that value is the new snapshot. *)
Theorem refresh_always_fetches st s r st' :
  session (zoltar_connection st) = Some s →
  refresh send st = (r, st') →
  sent st' = sent st ++ [fetch_request s (uri (resource st))] ∧
  zoltar_connection st' = zoltar_connection st ∧
  uri (resource st') = uri (resource st) ∧
  (∀ j, r = Ok j → _json (resource st') = j).
Proof.
  intros Hs H. unfold fetch_request. run. rewrite Hs in H.
  repeat case_match; simplify_eq; split_and!; try done; by intros ? [= <-].
Qed.

(** X17: when [authenticate] raises, the connection keeps the session
    it had (none, or the old token) but holds the new credentials; exactly
    the token request has been issued. *)
Theorem authenticate_failure u p st e st' :
  authenticate send u p st = (Raise e, st') →
  session (zoltar_connection st') = session (zoltar_connection st) ∧
  username (zoltar_connection st') = u ∧ password (zoltar_connection st') = p ∧
  host (zoltar_connection st') = host (zoltar_connection st) ∧
  resource st' = resource st ∧
  sent st' = sent st ++ [token_request (with_credentials (zoltar_connection st) u p)].
Proof.
  intros H. unfold token_request. run.
  repeat case_match; by simplify_eq.
Qed.

(** What has happened when [authenticate] returns. *)
Lemma authenticate_Ok u p st st' :
  authenticate send u p st = (Ok (), st') →
  ∃ r j t,
    send (sent st) (token_request (with_credentials (zoltar_connection st) u p)) = Ok r ∧
    status_code r = 200%Z ∧ json_body r = Some j ∧ py_getitem j "token" = Ok t ∧
    st' = {| zoltar_connection :=
               {| host := host (zoltar_connection st); username := u; password := p;
                  session := Some {| token := t |} |};
             resource := resource st;
             sent := sent st ++
                     [token_request (with_credentials (zoltar_connection st) u p)] |}.
Proof.
  unfold token_request. run. cbn [host username password sent zoltar_connection resource].
  intros H. repeat case_match; simplify_eq.
  all: eexists _, _, _; split_and!; try done.
  all: match goal with
       | Hc : negb _ = false |- _ => by apply negb_false_iff, Z.eqb_eq in Hc
       end.
Qed.

(** X18: [authenticate] returns exactly when the token request, a POST
    of the credentials to [<host>/api-token-auth/] without Authorization
    header, is answered with status 200 and a JSON value that has a 'token';
    the connection then holds the credentials and a session with that token,
    and the request is the only one issued. *)
Theorem authenticate_returns u p st st' :
  authenticate send u p st = (Ok (), st') ↔
  ∃ r j t,
    send (sent st) (token_request (with_credentials (zoltar_connection st) u p)) = Ok r ∧
    status_code r = 200%Z ∧ json_body r = Some j ∧ py_getitem j "token" = Ok t ∧
    st' = {| zoltar_connection :=
               {| host := host (zoltar_connection st); username := u; password := p;
                  session := Some {| token := t |} |};
             resource := resource st;
             sent := sent st ++
                     [token_request (with_credentials (zoltar_connection st) u p)] |}.
Proof.
  split; [apply authenticate_Ok|].
  intros (r & j & t & Hsend & Hcode & Hbody & Htoken & ->).
  unfold token_request in *. run.
  cbn [host username password sent zoltar_connection resource] in *.
  by rewrite Hsend, Hcode, Hbody, Htoken.
Qed.

(** X19: after [authenticate] has returned, the connection has a
    session, and the request [json_for_uri] issues next carries the token the
    server has just handed out. *)
Theorem authenticate_then_fetch u p st st' uri :
  authenticate send u p st = (Ok (), st') →
  ∃ r j t,
    send (sent st) (token_request (with_credentials (zoltar_connection st) u p)) = Ok r ∧
    json_body r = Some j ∧ py_getitem j "token" = Ok t ∧
    sent (json_for_uri send uri st').2 =
    sent st ++ [token_request (with_credentials (zoltar_connection st) u p);
                fetch_request {| token := t |} uri].
Proof.
  intros (r & j & t & Hsend & _ & Hbody & Htoken & ->)%authenticate_Ok.
  exists r, j, t. split_and!; try done.
  destruct (json_for_uri_session send uri
              {| zoltar_connection :=
                   {| host := host (zoltar_connection st); username := u; password := p;
                      session := Some {| token := t |} |};
                 resource := resource st;
                 sent := sent st ++
                         [token_request (with_credentials (zoltar_connection st) u p)] |}
              {| token := t |} eq_refl) as [res ->].
  cbn [snd sent]. by rewrite <- app_assoc.
Qed.

(** X20: [delete] returns exactly when the connection has a session and
    the DELETE of the proxy's uri is answered with status 204; it never
    touches the proxy or the connection, so a snapshot cached before is still
    returned by [json], without a request, after the deletion. *)
Theorem delete_returns st :
  (∀ st', Connection.delete send st = (Ok (), st') ↔
          ∃ s r, session (zoltar_connection st) = Some s ∧
                 send (sent st) (delete_request s (uri (resource st))) = Ok r ∧
                 status_code r = 204%Z ∧
                 st' = after_request (delete_request s (uri (resource st))) st) ∧
  (∀ r st', Connection.delete send st = (r, st') →
            resource st' = resource st ∧ zoltar_connection st' = zoltar_connection st) ∧
  (∀ st', Connection.delete send st = (Ok (), st') →
          py_truthy (_json (resource st)) = true →
          json send st' = (Ok (_json (resource st)), st')).
Proof.
  assert (∀ r st', Connection.delete send st = (r, st') →
                   resource st' = resource st ∧
                   zoltar_connection st' = zoltar_connection st) as Hframe.
  { intros r st' H. run. repeat case_match; by simplify_eq. }
  split_and!; [|done|].
  - intros st'. unfold delete_request. run. split.
    + intros H. repeat case_match; simplify_eq.
      eexists _, _. split_and!; try done.
      match goal with Hc : negb _ = false |- _ => by apply negb_false_iff, Z.eqb_eq in Hc end.
    + intros (s & r & -> & -> & Hcode & ->). by rewrite Hcode.
  - intros st' H Htruthy. destruct (Hframe _ _ H) as [Hres _].
    rewrite <- Hres. apply json_cached. by rewrite Hres.
Qed.

Lemma getitem_truthy j key v : py_getitem j key = Ok v → py_truthy j = true.
Proof.
  destruct j; try discriminate. cbn. by destruct kvs.
Qed.

Lemma string_app_assoc (a b c : string) : ((a ++ b) ++ c)%string = (a ++ b ++ c)%string.
Proof.
  induction a as [|x a IH]; [done|]. by rewrite !append_cons, IH.
Qed.

Lemma string_app_nil_r (a : string) : (a ++ "")%string = a.
Proof. induction a as [|x a IH]; [done|]. by rewrite append_cons, IH. Qed.

(** The id of [<host><path>/<n>] followed by [k] slashes. *)
Lemma id_for_uri_path h path n k :
  id_for_uri (h ++ path ++ String "/" (decimal n ++ slashes k))%string = Ok (Z.of_nat n).
Proof.
  rewrite <- string_app_assoc. unfold id_for_uri.
  change ((h ++ path) ++ String "/" (decimal n ++ slashes k))%string
    with ((h ++ path) ++ "/" ++ decimal n ++ slashes k)%string.
  rewrite (last_segment _ _ _ (decimal_free_of_slash n) (decimal_nonempty n)).
  apply py_int_decimal.
Qed.

(** X21: [create_model] on a configuration with exactly the expected
    keys, when the POST to [<uri>models/] is answered with 200 and a JSON
    value that has an 'id', returns a proxy whose uri is
    [<host>/api/model/<id>] and whose snapshot is the answer; only that
    request is issued.  The snapshot is cached: reading [json] on the new
    proxy sends nothing; and the id of the new proxy is the 'id' of the
    answer when that is a natural number. *)
Theorem create_model_returns kvs st s r j pk :
  list_to_set (dict_keys kvs) = expected_keys →
  session (zoltar_connection st) = Some s →
  send (sent st) (create_model_request s (uri (resource st)) (JDict kvs)) = Ok r →
  status_code r = 200%Z → json_body r = Some j → py_getitem j "id" = Ok pk →
  let model := ZoltarResource__init__
                 (host (zoltar_connection st) ++ "/api/model/" ++ py_str pk)%string j in
  let st' := after_request (create_model_request s (uri (resource st)) (JDict kvs)) st in
  create_model send py_str (JDict kvs) st = (Ok model, st') ∧
  json send (on_resource model st') = (Ok j, on_resource model st') ∧
  (∀ n, py_str pk = decimal n → id_for_uri (uri model) = Ok (Z.of_nat n)).
Proof.
  intros Hkeys Hs Hsend Hcode Hbody Hid model st'. split_and!.
  - subst model st'. unfold create_model_request in *. unfold create_model, actual_keys. run.
    rewrite bool_decide_eq_true_2 by done. cbn [negb]. cbn beta iota.
    rewrite Hs. cbn beta iota. rewrite Hsend, Hcode. cbn [negb Z.eqb Pos.eqb].
    cbn beta iota. rewrite Hbody. cbn beta iota. by rewrite Hid.
  - apply (json_cached send (on_resource model st')). cbn.
    by apply getitem_truthy in Hid.
  - intros n Hn. subst model. cbn [uri ZoltarResource__init__]. rewrite Hn.
    rewrite <- (string_app_nil_r (decimal n)).
    apply (id_for_uri_path _ "/api/model" n 0).
Qed.

(** ** Navigation *)

Lemma comprehension_Ok {A B} (f : A → result B) xs ys :
  comprehension f xs = Ok ys → Forall2 (λ x y, f x = Ok y) xs ys.
Proof.
  revert ys. induction xs as [|x xs IH]; intros ys; cbn [comprehension].
  - intros [= <-]. constructor.
  - destruct (f x) as [y|] eqn:Hy; [|done]. cbn.
    destruct (comprehension f xs) as [ys'|]; [|done]. cbn. intros [= <-].
    constructor; auto.
Qed.

Lemma comprehension_Raise {A B} (f : A → result B) xs x e :
  x ∈ xs → f x = Raise e → ∃ e', comprehension f xs = Raise e'.
Proof.
  intros Hin Hx. induction xs as [|x' xs IH]; [by apply elem_of_nil in Hin|].
  cbn [comprehension]. apply elem_of_cons in Hin as [<-|Hin].
  - rewrite Hx. cbn. eauto.
  - destruct (f x'); cbn; [|by eauto].
    destruct (IH Hin) as [e' ->]. cbn. eauto.
Qed.

Lemma fetches_list_children m list_uri :
  fetches_list send m list_uri → lists_children send m list_uri.
Proof.
  intros Hm st children st' H. rewrite Hm in H.
  destruct (json_for_uri send (list_uri st) st) as [[l|e] st1] eqn:Hfetch; [|done].
  injection H as Hl <-.
  unfold fetch_request in *. run.
  repeat case_match; simplify_eq.
  unfold proxies_of_list in Hl. destruct (py_iter l) as [items|] eqn:Hitems; [|done].
  cbn in Hl. apply comprehension_Ok in Hl.
  eexists _, _, l, items. split_and!; try done.
  - match goal with Hc : negb _ = false |- _ => by apply negb_false_iff, Z.eqb_eq in Hc end.
  - eapply Forall2_impl; [done|]. intros item child Hchild. cbn in Hchild.
    destruct (py_getitem item "url") eqn:Hurl; [|done]. cbn in Hchild.
    by injection Hchild as <-.
Qed.

Lemma fetches_list_as_a_whole m list_uri :
  fetches_list send m list_uri → fails_as_a_whole send m list_uri.
Proof.
  intros Hm st s r l items item e Hs Hsend Hcode Hbody Hitems Hin Hurl.
  rewrite Hm. unfold fetch_request in *. run. rewrite Hs, Hsend, Hcode, Hbody.
  cbn [negb Z.eqb Pos.eqb]. cbn beta iota. unfold proxies_of_list. rewrite Hitems. cbn.
  destruct (comprehension_Raise
              (λ x_json, url ← py_getitem x_json "url";
                         Ok {| new_uri := url; new_json := x_json |}) items item e Hin)
    as [e' ->]; [by rewrite Hurl|]. eauto.
Qed.

Lemma navigation_fetches_list :
  fetches_list send (projects send)
    (λ st, (host (zoltar_connection st) ++ "/api/projects/")%string) ∧
  fetches_list send (Project_models send) (λ st, (uri (resource st) ++ "models/")%string) ∧
  fetches_list send (Project_units send) (λ st, (uri (resource st) ++ "units/")%string) ∧
  fetches_list send (Project_targets send) (λ st, (uri (resource st) ++ "targets/")%string) ∧
  fetches_list send (Project_timezeros send)
    (λ st, (uri (resource st) ++ "timezeros/")%string) ∧
  fetches_list send (Model_forecasts send)
    (λ st, (uri (resource st) ++ "forecasts/")%string).
Proof.
  split_and!; intros st; unfold projects, Project_models, Project_units, Project_targets,
    Project_timezeros, Model_forecasts, get_self, get_connection, lift;
    unfold mbind, M_bind; cbn beta iota;
    by destruct (json_for_uri send _ st) as [[l|e] st1].
Qed.

(** X22: each navigation property ([projects], and a project's models,
    units, targets and timezeros, and a model's forecasts) returns, when it
    returns, one child per element of the list it has fetched with a single
    GET, in the order of the list; the snapshot of each child is its element
    and its uri is the element's 'url'. *)
Theorem navigation_lists_children :
  lists_children send (projects send)
    (λ st, (host (zoltar_connection st) ++ "/api/projects/")%string) ∧
  lists_children send (Project_models send) (λ st, (uri (resource st) ++ "models/")%string) ∧
  lists_children send (Project_units send) (λ st, (uri (resource st) ++ "units/")%string) ∧
  lists_children send (Project_targets send)
    (λ st, (uri (resource st) ++ "targets/")%string) ∧
  lists_children send (Project_timezeros send)
    (λ st, (uri (resource st) ++ "timezeros/")%string) ∧
  lists_children send (Model_forecasts send)
    (λ st, (uri (resource st) ++ "forecasts/")%string).
Proof.
  destruct navigation_fetches_list as (H1 & H2 & H3 & H4 & H5 & H6).
  split_and!; by apply fetches_list_children.
Qed.

(** X23: a navigation property returns no child at all, and raises, as
    soon as one element of the list it has fetched has no 'url'; the request
    has been issued all the same. *)
Theorem navigation_fails_as_a_whole :
  fails_as_a_whole send (projects send)
    (λ st, (host (zoltar_connection st) ++ "/api/projects/")%string) ∧
  fails_as_a_whole send (Project_models send)
    (λ st, (uri (resource st) ++ "models/")%string) ∧
  fails_as_a_whole send (Project_units send) (λ st, (uri (resource st) ++ "units/")%string) ∧
  fails_as_a_whole send (Project_targets send)
    (λ st, (uri (resource st) ++ "targets/")%string) ∧
  fails_as_a_whole send (Project_timezeros send)
    (λ st, (uri (resource st) ++ "timezeros/")%string) ∧
  fails_as_a_whole send (Model_forecasts send)
    (λ st, (uri (resource st) ++ "forecasts/")%string).
Proof.
  destruct navigation_fetches_list as (H1 & H2 & H3 & H4 & H5 & H6).
  split_and!; by apply fetches_list_as_a_whole.
Qed.

(** X24: a proxy made from a list element whose 'url' is a [str] never
    needs a fetch: [json] returns the element, and every typed accessor the
    element's item (or the [KeyError] of a missing key), without a request and
    whatever the session is. *)
Theorem listed_child_is_cached item u st key :
  py_getitem item "url" = Ok (JStr u) →
  let child := {| new_uri := JStr u; new_json := item |} in
  let st' := on_resource (ZoltarResource__init__ u item) st in
  as_resource child = Some (ZoltarResource__init__ u item) ∧
  json send st' = (Ok item, st') ∧
  json_item send key st' = (py_getitem item key, st').
Proof.
  intros Hurl child st'.
  assert (json send st' = (Ok item, st')) as Hjson.
  { apply (json_cached send st'). cbn. by apply getitem_truthy in Hurl. }
  split_and!; [done|done|].
  unfold json_item, lift. unfold mbind, M_bind. by rewrite Hjson.
Qed.

(** X25: [forecast_for_pk] sends nothing and never fails; the proxy it
    returns has no snapshot, and when the key is a natural number its uri is
    [<host>/api/forecast/<key>/] and its [id] property is the key. *)
Theorem forecast_for_pk_id forecast_pk st :
  ∃ forecast,
    Model_forecast_for_pk py_str forecast_pk st = (Ok forecast, st) ∧
    _json forecast = JNull ∧
    (∀ n, py_str forecast_pk = decimal n →
          uri forecast = locator (host (zoltar_connection st) ++ "/api/forecast") n 1 ∧
          ZoltarResource_id (on_resource forecast st) =
          (Ok (Z.of_nat n), on_resource forecast st)).
Proof.
  eexists. split_and!; [reflexivity|reflexivity|].
  intros n Hn. split.
  - cbn [uri ZoltarResource__init__]. rewrite Hn. unfold locator.
    by rewrite string_app_assoc.
  - unfold ZoltarResource_id, get_self, lift. unfold mbind, M_bind.
    cbn [on_resource resource uri ZoltarResource__init__]. rewrite Hn.
    by rewrite (id_for_uri_path _ "/api/forecast" n 1).
Qed.

(** ** Upload file jobs *)

Lemma json_Ok_snapshot st j st' :
  json send st = (Ok j, st') → _json (resource st') = j.
Proof. intros H. run. repeat case_match; by simplify_eq. Qed.

Lemma status_as_str_Ok st name st' :
  status_as_str send st = (Ok name, st') →
  ∃ j v, json send st = (Ok j, st') ∧ py_getitem j "status" = Ok v ∧
         status_lookup v = Ok name.
Proof.
  unfold status_as_str, lift. unfold mbind, M_bind. intros H.
  destruct (json send st) as [[j|] st1]; [|done].
  destruct (py_getitem j "status") as [v|] eqn:Hv; [|done].
  destruct (status_lookup v) eqn:Hname; [|done]. simplify_eq. eauto.
Qed.

Lemma status_table_names n name :
  STATUS_ID_TO_STR !! n = Some name →
  name ∈ ["PENDING"; "CLOUD_FILE_UPLOADED"; "QUEUED"; "CLOUD_FILE_DOWNLOADED"; "SUCCESS";
          "FAILED"].
Proof.
  unfold STATUS_ID_TO_STR. intros H.
  repeat (rewrite lookup_insert in H; case_decide; [simplify_eq; set_solver|]).
  by rewrite lookup_empty in H.
Qed.

(** X26: whatever the snapshot holds as status (an integer, a boolean,
    a float), a name [status_as_str] returns is one of the six names of the
    table. *)
Theorem status_as_str_names st name st' :
  status_as_str send st = (Ok name, st') →
  name ∈ ["PENDING"; "CLOUD_FILE_UPLOADED"; "QUEUED"; "CLOUD_FILE_DOWNLOADED"; "SUCCESS";
          "FAILED"].
Proof.
  intros (j & v & _ & _ & Hname)%status_as_str_Ok. unfold status_lookup in Hname.
  destruct v; try done;
    repeat case_match; simplify_eq; by eapply status_table_names.
Qed.

(** X27: the status is read from the snapshot, so it is stale until
    [refresh]: once [status_as_str] has returned a name, calling it again
    returns the same name and sends nothing; after a [refresh] that returns,
    it reports the status of the refreshed snapshot, again without a request
    of its own. *)
Theorem status_as_str_stale st name st' :
  status_as_str send st = (Ok name, st') →
  status_as_str send st' = (Ok name, st') ∧
  (∀ j' st'' v,
     refresh send st' = (Ok j', st'') → py_getitem j' "status" = Ok v →
     status_as_str send st'' = (status_lookup v, st'')).
Proof.
  intros (j & v & Hjson & Hv & Hname)%status_as_str_Ok.
  assert (∀ st1 j1 v1, _json (resource st1) = j1 → py_getitem j1 "status" = Ok v1 →
                       status_as_str send st1 = (status_lookup v1, st1)) as Hcached.
  { intros st1 j1 v1 <- Hv1. unfold status_as_str, lift. unfold mbind, M_bind.
    rewrite (json_cached send st1) by by apply getitem_truthy in Hv1.
    by rewrite Hv1. }
  split.
  - rewrite <- Hname. apply (Hcached _ j); [|done]. by apply json_Ok_snapshot in Hjson.
  - intros j' st'' v' Hrefresh Hv'. apply (Hcached _ j'); [|done].
    run. repeat case_match; by simplify_eq.
Qed.

(** ** What no method does *)

(** X28: no retry and no moving target: every method issues at most one
    request per call, and none changes the uri of the proxy or the host of the
    connection. *)
Theorem methods_are_frugal :
  (∀ uri, frugal (json_for_uri send uri)) ∧
  frugal (refresh send) ∧ frugal (json send) ∧ frugal (Connection.delete send) ∧
  (∀ model_config, frugal (create_model send py_str model_config)) ∧
  (∀ u p, frugal (authenticate send u p)) ∧
  frugal (re_authenticate_if_necessary send) ∧
  frugal (projects send) ∧ frugal (Project_models send) ∧ frugal (Project_units send) ∧
  frugal (Project_targets send) ∧ frugal (Project_timezeros send) ∧
  frugal (Model_forecasts send) ∧
  (∀ forecast_pk, frugal (Model_forecast_for_pk py_str forecast_pk)) ∧
  (∀ key, frugal (json_item send key)) ∧
  frugal (status_as_str send) ∧ frugal (Forecast_timezero send).
Proof.
  split_and!; intros; intros st; unfold actual_keys; run;
    repeat case_match; simplify_eq; cbn; eauto.
Qed.

(** X29: who writes what: only [authenticate] and
    [re_authenticate_if_necessary] change the connection (credentials,
    session), and only [refresh] and the reads that go through [json] change
    the proxy; [json_for_uri], [delete], [create_model], the navigation
    properties and [forecast_for_pk] change neither. *)
Theorem methods_frame :
  ((∀ uri, keeps_connection (json_for_uri send uri)) ∧
   keeps_connection (refresh send) ∧ keeps_connection (json send) ∧
   keeps_connection (Connection.delete send) ∧
   (∀ model_config, keeps_connection (create_model send py_str model_config)) ∧
   keeps_connection (projects send) ∧ keeps_connection (Project_models send) ∧
   keeps_connection (Project_units send) ∧ keeps_connection (Project_targets send) ∧
   keeps_connection (Project_timezeros send) ∧ keeps_connection (Model_forecasts send) ∧
   (∀ forecast_pk, keeps_connection (Model_forecast_for_pk py_str forecast_pk)) ∧
   (∀ key, keeps_connection (json_item send key)) ∧
   keeps_connection (status_as_str send) ∧ keeps_connection (Forecast_timezero send)) ∧
  ((∀ uri, keeps_resource (json_for_uri send uri)) ∧
   keeps_resource (Connection.delete send) ∧
   (∀ model_config, keeps_resource (create_model send py_str model_config)) ∧
   (∀ u p, keeps_resource (authenticate send u p)) ∧
   keeps_resource (re_authenticate_if_necessary send) ∧
   keeps_resource (projects send) ∧ keeps_resource (Project_models send) ∧
   keeps_resource (Project_units send) ∧ keeps_resource (Project_targets send) ∧
   keeps_resource (Project_timezeros send) ∧ keeps_resource (Model_forecasts send) ∧
   (∀ forecast_pk, keeps_resource (Model_forecast_for_pk py_str forecast_pk))).
Proof.
  split; split_and!; intros; intros st; unfold actual_keys; run;
    repeat case_match; by simplify_eq.
Qed.

End WithTransport.

(** ** The theorems at the sample servers *)

Lemma unauthenticated_sends_nothing_witness :
  refresh job_server unauthenticated = (Raise (RuntimeError JsonForUriNoSession), unauthenticated) ∧
  delete job_server unauthenticated = (Raise AttributeError, unauthenticated).
Proof.
  pose proof (unauthenticated_sends_nothing job_server str_of_scalar unauthenticated eq_refl)
    as (_ & Hrefresh & _ & _ & _ & _ & _ & _ & Hdelete & _).
  split; [exact Hrefresh | exact Hdelete].
Defined.

Lemma json_for_uri_returns_witness :
  json_for_uri failing_server "https://zoltardata.com/api/project/3/" project_state =
  (Raise (RuntimeError (JsonForUriStatus 500 "Server Error (500)")),
   after_request (fetch_request {| token := JStr "stale-token" |}
                    "https://zoltardata.com/api/project/3/") project_state).
Proof.
  exact (proj2 (json_for_uri_returns failing_server "https://zoltardata.com/api/project/3/"
                  project_state) {| token := JStr "stale-token" |} _ eq_refl eq_refl
           ltac:(discriminate)).
Defined.

Lemma refresh_always_fetches_witness :
  sent (refresh job_server cached_job).2 =
  sent cached_job ++ [fetch_request {| token := JStr "stale-token" |}
                        "https://zoltardata.com/api/uploadfilejob/2/"] ∧
  _json (resource (refresh job_server cached_job).2) = job_json.
Proof.
  pose proof (refresh_always_fetches job_server cached_job {| token := JStr "stale-token" |}
                (Ok job_json) (refresh job_server cached_job).2 eq_refl eq_refl)
    as (Hsent & _ & _ & Hjson).
  split; [exact Hsent | exact (Hjson _ eq_refl)].
Defined.

Lemma authenticate_failure_witness :
  session (zoltar_connection
             (authenticate failing_server (Some "other") (Some "wrong") project_state).2) =
  Some {| token := JStr "stale-token" |} ∧
  username (zoltar_connection
              (authenticate failing_server (Some "other") (Some "wrong") project_state).2) =
  Some "other".
Proof.
  pose proof (authenticate_failure failing_server (Some "other") (Some "wrong")
                project_state (RuntimeError (GetTokenStatus 500 "Server Error (500)"))
                (authenticate failing_server (Some "other") (Some "wrong") project_state).2
                eq_refl) as (Hsession & Husername & _).
  split; [exact Hsession | exact Husername].
Defined.

Lemma authenticate_returns_witness :
  ∃ st', authenticate job_server (Some "user") (Some "secret") unauthenticated = (Ok (), st') ∧
         session (zoltar_connection st') = Some {| token := JStr "fresh-token" |}.
Proof.
  exists (authenticate job_server (Some "user") (Some "secret") unauthenticated).2.
  split; [|reflexivity].
  apply (proj2 (authenticate_returns job_server (Some "user") (Some "secret")
                  unauthenticated _)).
  exists (ok_response (JDict [("token", JStr "fresh-token")])),
         (JDict [("token", JStr "fresh-token")]), (JStr "fresh-token").
  split_and!; reflexivity.
Defined.

Lemma authenticate_then_fetch_witness :
  ∃ r j t,
    job_server [] (token_request (with_credentials (zoltar_connection unauthenticated)
                                    (Some "user") (Some "secret"))) = Ok r ∧
    json_body r = Some j ∧ py_getitem j "token" = Ok t ∧
    sent (json_for_uri job_server "https://zoltardata.com/api/projects/"
            (authenticate job_server (Some "user") (Some "secret") unauthenticated).2).2 =
    [] ++ [token_request (with_credentials (zoltar_connection unauthenticated)
                            (Some "user") (Some "secret"));
           fetch_request {| token := t |} "https://zoltardata.com/api/projects/"].
Proof.
  exact (authenticate_then_fetch job_server (Some "user") (Some "secret") unauthenticated
           (authenticate job_server (Some "user") (Some "secret") unauthenticated).2
           "https://zoltardata.com/api/projects/" eq_refl).
Defined.

Lemma delete_returns_witness :
  ∃ st', Connection.delete job_server cached_job = (Ok (), st') ∧
         json job_server st' = (Ok job_json, st').
Proof.
  exists (Connection.delete job_server cached_job).2.
  split; [reflexivity|].
  exact (proj2 (proj2 (delete_returns job_server cached_job)) _ eq_refl eq_refl).
Defined.

Lemma create_model_returns_witness :
  create_model project_server str_of_scalar (JDict complete_config) project_state =
  (Ok (ZoltarResource__init__ "https://zoltardata.com/api/model/7" new_model_json),
   after_request (create_model_request {| token := JStr "stale-token" |}
                    "https://zoltardata.com/api/project/3/" (JDict complete_config))
     project_state) ∧
  id_for_uri "https://zoltardata.com/api/model/7" = Ok 7%Z.
Proof.
  assert (list_to_set (dict_keys complete_config) = expected_keys) as Hkeys
    by (apply (bool_decide_unpack _); by vm_compute).
  pose proof (create_model_returns project_server str_of_scalar complete_config
                project_state {| token := JStr "stale-token" |}
                (ok_response new_model_json) new_model_json (JInt 7)
                Hkeys eq_refl eq_refl eq_refl eq_refl eq_refl) as (Hmodel & _ & Hid).
  split; [exact Hmodel | exact (Hid 7%nat eq_refl)].
Defined.

Lemma navigation_lists_children_witness :
  ∃ s r l items,
    session (zoltar_connection project_state) = Some s ∧
    project_server (sent project_state)
      (fetch_request s (uri (resource project_state) ++ "models/")%string) = Ok r ∧
    status_code r = 200%Z ∧ json_body r = Some l ∧ py_iter l = Ok items ∧
    (Project_models project_server project_state).2 =
    {| zoltar_connection := zoltar_connection project_state;
       resource := resource project_state;
       sent := sent project_state ++
               [fetch_request s (uri (resource project_state) ++ "models/")%string] |} ∧
    Forall2 (λ item child, new_json child = item ∧
                           py_getitem item "url" = Ok (new_uri child))
      items
      [{| new_uri := JStr "https://zoltardata.com/api/model/5/"; new_json := model5_json |};
       {| new_uri := JStr "https://zoltardata.com/api/model/6/"; new_json := model6_json |}].
Proof.
  exact (proj1 (proj2 (navigation_lists_children project_server)) project_state _ _ eq_refl).
Defined.

Lemma navigation_fails_as_a_whole_witness :
  ∃ e, (Project_models broken_list_server project_state).1 = Raise e ∧
       sent (Project_models broken_list_server project_state).2 =
       sent project_state ++
       [fetch_request {| token := JStr "stale-token" |}
          (uri (resource project_state) ++ "models/")%string].
Proof.
  refine (proj1 (proj2 (navigation_fails_as_a_whole broken_list_server)) project_state
            {| token := JStr "stale-token" |} _ _ [model5_json; JDict [("id", JInt 6)]]
            (JDict [("id", JInt 6)]) (KeyError (JStr "url"))
            eq_refl eq_refl eq_refl eq_refl eq_refl _ eq_refl).
  apply elem_of_cons. right. apply elem_of_cons. by left.
Defined.

Lemma listed_child_is_cached_witness :
  json failing_server
    (on_resource (ZoltarResource__init__ "https://zoltardata.com/api/model/5/" model5_json)
       unauthenticated) =
  (Ok model5_json,
   on_resource (ZoltarResource__init__ "https://zoltardata.com/api/model/5/" model5_json)
     unauthenticated).
Proof.
  exact (proj1 (proj2 (listed_child_is_cached failing_server model5_json
                         "https://zoltardata.com/api/model/5/" unauthenticated "name"
                         eq_refl))).
Defined.

Lemma forecast_for_pk_id_witness :
  ∃ forecast,
    Model_forecast_for_pk str_of_scalar (JInt 71) project_state = (Ok forecast, project_state) ∧
    _json forecast = JNull ∧
    uri forecast = "https://zoltardata.com/api/forecast/71/" ∧
    ZoltarResource_id (on_resource forecast project_state) =
    (Ok 71%Z, on_resource forecast project_state).
Proof.
  destruct (forecast_for_pk_id str_of_scalar (JInt 71) project_state)
    as (forecast & Hreturns & Hjson & Hid).
  exists forecast. destruct (Hid 71%nat eq_refl) as [Huri Hid71].
  split; [exact Hreturns|]. split; [exact Hjson|]. split; [exact Huri | exact Hid71].
Defined.

Lemma status_as_str_names_witness :
  "SUCCESS" ∈ ["PENDING"; "CLOUD_FILE_UPLOADED"; "QUEUED"; "CLOUD_FILE_DOWNLOADED"; "SUCCESS";
               "FAILED"].
Proof.
  exact (status_as_str_names job_server fresh_job "SUCCESS" cached_job eq_refl).
Defined.

Lemma status_as_str_stale_witness :
  status_as_str failing_server cached_job = (Ok "SUCCESS", cached_job).
Proof.
  exact (proj1 (status_as_str_stale failing_server cached_job "SUCCESS" cached_job eq_refl)).
Defined.

End ResourcesSpec.
